(** * DiffDRR: the DRR orchestrator ([src/drr.py])

    A shallow embedding of the [DRR] module of DiffDRR: its constructor,
    [forward] and [initialize_parameters], over a model of the Python
    values, the [torch] tensors and the [nn.Module] parameters they use.

    The detector, the Siddon projector and the backend selector are
    imported by [drr.py] from other modules; they enter as the interface
    [Collaborators], and [Reference] gives an instance of it.  *)

From Stdlib Require Import ZArith List String Ascii Bool Lia.
From Stdlib Require Import Floats.SpecFloat.
Import ListNotations.
Local Open Scope string_scope.
Local Open Scope Z_scope.

(** ** Python values and exceptions *)

Module Py.

(** An exception is identified by the name of its class. *)
Definition exn := string.

Definition TypeError : exn := "TypeError".
Definition OverflowError : exn := "OverflowError".
Definition ValueError : exn := "ValueError".

(** The outcome of evaluating a Python expression. *)
Inductive outcome (A : Type) : Type :=
| Returns (a : A)
| Raises (e : exn).
Arguments Returns {A} a.
Arguments Raises {A} e.

Definition bind {A B} (r : outcome A) (k : A -> outcome B) : outcome B :=
  match r with
  | Returns a => k a
  | Raises e => Raises e
  end.

Fixpoint mapM {A B} (f : A -> outcome B) (l : list A) : outcome (list B) :=
  match l with
  | [] => Returns []
  | a :: l' =>
      bind (f a) (fun b => bind (mapM f l') (fun bs => Returns (b :: bs)))
  end.

(** A Python [float] is an IEEE 754 binary64 number. *)
Definition float64 := spec_float.

(** The numbers a caller passes for a pose scalar or a pixel size. *)
Inductive num : Type :=
| PyInt (n : Z)
| PyFloat (x : float64).

(** An argument whose default is [None]: [None] here is Python's [None]. *)
Definition arg := option num.

Definition is_not_None (a : arg) : bool :=
  match a with
  | Some _ => true
  | None => false
  end.

(** [any(a is not None for a in l)] *)
Definition any_is_not_None (l : list arg) : bool :=
  existsb is_not_None l.

(** [float(n)] for a Python [int]: the nearest binary64 number, ties to
    even; an [int] beyond the binary64 range raises. *)
Definition float_of_int (n : Z) : outcome float64 :=
  match binary_normalize 53 1024 n 0 false with
  | S754_infinity _ => Raises OverflowError
  | x => Returns x
  end.

(** [PyFloat_AsDouble]: the C double of a Python object. *)
Definition as_double (a : arg) : outcome float64 :=
  match a with
  | None => Raises TypeError
  | Some (PyFloat x) => Returns x
  | Some (PyInt n) => float_of_int n
  end.

End Py.
Export Py.

Declare Scope py_scope.
Delimit Scope py_scope with py.
Notation "x <- c ;; k" := (Py.bind c (fun x => k))
  (at level 61, c at next level, right associativity) : py_scope.

(** ** Tensors and module parameters of [torch] *)

Module Torch.

Definition float32 := spec_float.

Inductive dtype : Type := Float32 | Float64 | Int64.

(** [torch.device], identified by its name. *)
Definition device := string.

(** The C cast [(float) x] of a double: the nearest binary32 number, ties
    to even, overflow to an infinity. *)
Definition to_float32 (x : float64) : float32 :=
  match x with
  | S754_finite s m e => binary_round 24 128 s m e
  | _ => x
  end.

(** The numbers of the binary32 format: 24 bits of precision, exponents
    below 128. *)
Definition is_binary32 (v : float32) : bool := valid_binary 24 128 v.

Record Tensor : Type := mkTensor {
  t_dtype : dtype;
  t_device : device;
  t_shape : list nat;
  t_data : list float32
}.

(** Storing one Python scalar into a [float32] tensor. *)
Definition store_scalar (a : arg) : outcome float32 :=
  (x <- as_double a ;; Returns (to_float32 x))%py.

(** [torch.tensor(a, dtype=torch.float32, device=dev)], [a] a scalar. *)
Definition tensor_of_scalar (a : arg) (dev : device) : outcome Tensor :=
  (x <- store_scalar a ;; Returns (mkTensor Float32 dev [] [x]))%py.

(** [torch.tensor(l, dtype=torch.float32, device=dev)], [l] a list of
    scalars. *)
Definition tensor_of_list (l : list arg) (dev : device) : outcome Tensor :=
  (xs <- mapM store_scalar l ;;
   Returns (mkTensor Float32 dev [List.length l] xs))%py.

(** [nn.Parameter(data, requires_grad)]; [requires_grad] defaults to
    [True]. *)
Record nn_Parameter : Type := mkParameter {
  data : Tensor;
  requires_grad : bool
}.

End Torch.
Export Torch.

(** ** The collaborators of [drr.py]

    [drr.py] imports [get_device] from [utils.backend], [Detector] from
    [utils.camera] and [Siddon] from [projectors.siddon].  The orchestrator
    only constructs them and calls [make_xrays] and [raytrace]; they are
    taken as an interface.  Following the design (the ray generator has no
    side effects, the tracer is a deterministic integrator) a call is a
    function of its arguments that returns or raises. *)

Class Collaborators : Type := {
  Volume : Type;
  Spacing : Type;
  Detector : Type;
  Siddon : Type;
  Source : Type;
  Rays : Type;
  Image : Type;
  (** [get_device(device)] *)
  get_device : string -> outcome device;
  (** [Detector(height, width, delx, dely, device)] *)
  new_Detector : Z -> Z -> num -> num -> string -> outcome Detector;
  (** [Siddon(volume, spacing, device)] *)
  new_Siddon : Volume -> Spacing -> string -> outcome Siddon;
  (** [detector.make_xrays(sdr, rotations, translations)] *)
  make_xrays : Detector -> option nn_Parameter -> option nn_Parameter ->
               option nn_Parameter -> outcome (Source * Rays);
  (** [siddon.raytrace(source, rays)] *)
  raytrace : Siddon -> Source -> Rays -> outcome Image;
  (** the shape of an image tensor, [(rows, columns)] *)
  shape : Image -> Z * Z
}.

(** ** The DRR module *)

Section DRR.

Context {C : Collaborators}.

(** The attributes of a [DRR] object.  The three registered parameters
    [sdr], [rotations] and [translations] are [None] until assigned. *)
Record DRR : Type := mkDRR {
  self_device : device;
  self_detector : Detector;
  self_siddon : Siddon;
  self_sdr : option nn_Parameter;
  self_rotations : option nn_Parameter;
  self_translations : option nn_Parameter
}.

(** [DRR.__init__(volume, spacing, height, delx, width=None, dely=None,
    device)] *)
Definition DRR_init (volume : Volume) (spacing : Spacing) (height : Z)
    (delx : num) (width : option Z) (dely : option num) (device : string)
  : outcome DRR :=
  (dev <- get_device device ;;
   let width := match width with None => height | Some w => w end in
   let dely := match dely with None => delx | Some _ => delx end in
   det <- new_Detector height width delx dely device ;;
   sid <- new_Siddon volume spacing device ;;
   Returns (mkDRR dev det sid None None None))%py.

(** A method of the object: it runs on the current attributes and leaves
    the attributes as they are when it returns or raises. *)
Definition method (A : Type) : Type := DRR -> outcome A * DRR.

Definition ret {A} (a : A) : method A := fun self => (Returns a, self).

Definition mbind {A B} (m : method A) (k : A -> method B) : method B :=
  fun self =>
    match m self with
    | (Returns a, self') => k a self'
    | (Raises e, self') => (Raises e, self')
    end.

(** Evaluating an expression that does not touch the attributes. *)
Definition eval {A} (r : outcome A) : method A := fun self => (r, self).

Definition read {A} (f : DRR -> A) : method A :=
  fun self => (Returns (f self), self).

(** [self.sdr = p], [self.rotations = p], [self.translations = p] *)
Definition set_sdr (p : nn_Parameter) : method unit :=
  fun self =>
    (Returns tt,
     mkDRR (self_device self) (self_detector self) (self_siddon self)
           (Some p) (self_rotations self) (self_translations self)).

Definition set_rotations (p : nn_Parameter) : method unit :=
  fun self =>
    (Returns tt,
     mkDRR (self_device self) (self_detector self) (self_siddon self)
           (self_sdr self) (Some p) (self_translations self)).

Definition set_translations (p : nn_Parameter) : method unit :=
  fun self =>
    (Returns tt,
     mkDRR (self_device self) (self_detector self) (self_siddon self)
           (self_sdr self) (self_rotations self) (Some p)).

End DRR.

Arguments DRR C : clear implicits.
Arguments method C A : clear implicits.

Declare Scope method_scope.
Delimit Scope method_scope with method.
Notation "x <- c ;; k" := (mbind c (fun x => k))
  (at level 61, c at next level, right associativity) : method_scope.
Notation "c ;; k" := (mbind c (fun _ => k))
  (at level 61, right associativity) : method_scope.

Section Methods.

Context {C : Collaborators}.

(** [DRR.initialize_parameters(sdr, theta, phi, gamma, bx, by, bz)] *)
Definition initialize_parameters (sdr theta phi gamma bx by_ bz : arg)
  : method C unit :=
  (dev <- read self_device ;;
   t <- eval (tensor_of_scalar sdr dev) ;;
   set_sdr (mkParameter t false) ;;
   t <- eval (tensor_of_list [theta; phi; gamma] dev) ;;
   set_rotations (mkParameter t true) ;;
   t <- eval (tensor_of_list [bx; by_; bz] dev) ;;
   set_translations (mkParameter t true))%method.

(** [DRR.forward(sdr=None, theta=None, phi=None, gamma=None, bx=None,
    by=None, bz=None)] *)
Definition forward (sdr theta phi gamma bx by_ bz : arg)
  : method C Image :=
  ((if any_is_not_None [sdr; theta; phi; gamma; bx; by_; bz]
    then initialize_parameters sdr theta phi gamma bx by_ bz
    else ret tt) ;;
   det <- read self_detector ;;
   s <- read self_sdr ;;
   r <- read self_rotations ;;
   t <- read self_translations ;;
   xr <- eval (make_xrays det s r t) ;;
   sid <- read self_siddon ;;
   drr <- eval (raytrace sid (fst xr) (snd xr)) ;;
   ret drr)%method.

(** [self.parameters()]: the registered parameters that are set, in the
    order of their registration. *)
Definition parameters (self : DRR C) : list nn_Parameter :=
  let present o := match o with Some p => [p] | None => [] end in
  present (self_sdr self) ++ present (self_rotations self)
    ++ present (self_translations self).

End Methods.

(** ** Calls on a constructed object *)

Section Calls.

Context {C : Collaborators}.

(** What a caller can do with a [DRR] object: render, or set the pose. *)
Inductive call : Type :=
| Forward (sdr theta phi gamma bx by_ bz : arg)
| InitializeParameters (sdr theta phi gamma bx by_ bz : arg).

(** The attributes after a call, whether it returned or raised. *)
Definition after (c : call) (self : DRR C) : DRR C :=
  match c with
  | Forward sdr theta phi gamma bx by_ bz =>
      snd (forward sdr theta phi gamma bx by_ bz self)
  | InitializeParameters sdr theta phi gamma bx by_ bz =>
      snd (initialize_parameters sdr theta phi gamma bx by_ bz self)
  end.

(** The objects a caller can reach from [self0] by a sequence of calls. *)
Inductive reachable (self0 : DRR C) : DRR C -> Prop :=
| reach_here : reachable self0 self0
| reach_call : forall self c,
    reachable self0 self -> reachable self0 (after c self).

(** Rendering from the stored pose: the ray generator on the stored
    parameters, then the tracer. *)
Definition render (self : DRR C) : outcome Image :=
  (xr <- make_xrays (self_detector self) (self_sdr self)
           (self_rotations self) (self_translations self) ;;
   raytrace (self_siddon self) (fst xr) (snd xr))%py.

(** The stored parameter [o], when set, is a [float32] tensor on [dev]:
    it has that dtype and device, and every entry is a binary32 number. *)
Definition float32_on (dev : device) (o : option nn_Parameter) : Prop :=
  match o with
  | None => True
  | Some p =>
      t_dtype (data p) = Float32 /\ t_device (data p) = dev /\
      Forall (fun v => is_binary32 v = true) (t_data (data p))
  end.

(** [v] is what is stored for the Python scalar [a]: the float32 cast of
    the double of [a].  It is a binary32 number, and it is the double
    itself when the double is one. *)
Definition stored_for (a : arg) (v : float32) : Prop :=
  exists x,
    as_double a = Returns x /\ v = to_float32 x /\
    is_binary32 v = true /\ (is_binary32 x = true -> v = x).

(** The object after one of the three assignments. *)
Definition with_sdr (self : DRR C) (p : nn_Parameter) : DRR C :=
  snd (set_sdr p self).
Definition with_rotations (self : DRR C) (p : nn_Parameter) : DRR C :=
  snd (set_rotations p self).
Definition with_translations (self : DRR C) (p : nn_Parameter) : DRR C :=
  snd (set_translations p self).

(** Two objects hold the same device, detector and tracer. *)
Definition same_components (a b : DRR C) : Prop :=
  self_device a = self_device b /\ self_detector a = self_detector b /\
  self_siddon a = self_siddon b.

(** Every stored pose tensor is float32 on the device of the object. *)
Definition pose_float32 (self : DRR C) : Prop :=
  float32_on (self_device self) (self_sdr self) /\
  float32_on (self_device self) (self_rotations self) /\
  float32_on (self_device self) (self_translations self).

End Calls.

(** ** A reference instance of the collaborators *)

Module Reference.

(** Modelled from the spec: the error kinds of the design's error
    handling (section 7), which [drr.py] neither defines nor imports. *)
Definition UninitializedPoseError : exn := "UninitializedPoseError".
Definition ShapeMismatchError : exn := "ShapeMismatchError".

(** Modelled from the spec: the VolumeGrid of the data model, a 3D array
    of intensities with a voxel spacing per axis. *)
Definition VolumeGrid : Type := list (list (list float64)).
Definition VoxelSpacing : Type := (num * num * num)%type.

(** Modelled from the spec: the DetectorGeometry of the data model (the
    class [Detector] of [utils.camera] is not in [drr.py]): height and
    width in pixels, the pixel pitches, and the device it was given. *)
Record DetectorGeometry : Type := mkDetector {
  height : Z;
  width : Z;
  delx : num;
  dely : num;
  detector_device : string
}.

(** Modelled from the spec: a detector geometry is made of its attributes
    and is immutable afterwards (data model, section 3); constructing it
    records the five arguments as given.  The design names no check in the
    detector: its ShapeMismatchError is an error of constructing the
    orchestrator (section 7). *)
Definition Detector_init (h w : Z) (dx dy : num) (dev : string)
  : outcome DetectorGeometry :=
  Returns (mkDetector h w dx dy dev).

(** Modelled from the spec: the backend selector, out of the design's
    scope; the docstring of [DRR.__init__] names the three devices. *)
Definition select_device (name : string) : outcome device :=
  if (String.eqb name "cpu" || String.eqb name "cuda"
      || String.eqb name "mps")%bool
  then Returns name
  else Raises ValueError.

(** Modelled from the spec: the Siddon tracer holds the volume grid. *)
Record SiddonTracer : Type := mkSiddon {
  volume : VolumeGrid;
  spacing : VoxelSpacing;
  siddon_device : string
}.

(** Modelled from the spec: a pose is the three stored tensors; the ray
    set is determined by the pose and the detector geometry, and the
    image by the volume grid and the ray set (data model, section 3).
    Rays and images are kept symbolic, as what determines them: no
    floating-point ray integration is evaluated here. *)
Record Pose : Type := mkPose {
  pose_sdr : Tensor;
  pose_rotations : Tensor;
  pose_translations : Tensor
}.

Record RaySet : Type := mkRays {
  rays_shape : Z * Z;
  rays_pitch : num * num;
  rays_pose : Pose
}.

Record DRRImage : Type := mkImage {
  image_shape : Z * Z;
  image_of : SiddonTracer * Pose * RaySet
}.

(** Modelled from the spec: the ray generator yields one ray per pixel of
    the height x width grid (section 4.2).  It computes with the pose
    tensors; applied to a parameter that is [None] Python raises. *)
Definition generate_rays (d : DetectorGeometry)
    (s r t : option nn_Parameter) : outcome (Pose * RaySet) :=
  match s, r, t with
  | Some s, Some r, Some t =>
      let pose := mkPose (data s) (data r) (data t) in
      Returns (pose, mkRays (height d, width d) (delx d, dely d) pose)
  | _, _, _ => Raises TypeError
  end.

(** Modelled from the spec: the tracer yields one intensity per ray, in
    the order of the rays (section 4.3). *)
Definition trace (sid : SiddonTracer) (src : Pose) (rays : RaySet)
  : outcome DRRImage :=
  Returns (mkImage (rays_shape rays) (sid, src, rays)).

#[export] Instance collaborators : Collaborators := {
  Volume := VolumeGrid;
  Spacing := VoxelSpacing;
  Detector := DetectorGeometry;
  Siddon := SiddonTracer;
  Source := Pose;
  Rays := RaySet;
  Image := DRRImage;
  get_device := select_device;
  new_Detector := Detector_init;
  new_Siddon := fun v sp dev => Returns (mkSiddon v sp dev);
  make_xrays := generate_rays;
  raytrace := trace;
  shape := image_shape
}.

(** The concrete scenario of the design: a 2x2x2 volume of ones with
    unit spacing. *)
Definition one : float64 := S754_finite false 4503599627370496 (-52).
Definition two : float64 := S754_finite false 4503599627370496 (-51).
Definition minus_one : float64 := S754_finite true 4503599627370496 (-52).
Definition tenth : float64 := S754_finite false 7205759403792794 (-56).

Definition ones : VolumeGrid :=
  [[[one; one]; [one; one]]; [[one; one]; [one; one]]].
Definition unit_spacing : VoxelSpacing := (PyInt 1, PyInt 1, PyInt 1).

(** A 2x2 detector of unit pitch over that volume, as constructed, and
    the same object once the pose (sdr 2.0, all angles and offsets 0) is
    set. *)
Definition fresh_drr : DRR collaborators :=
  mkDRR "cpu" (mkDetector 2 2 (PyFloat one) (PyFloat one) "cpu")
        (mkSiddon ones unit_spacing "cpu") None None None.

Definition zeros3 : Tensor :=
  mkTensor Float32 "cpu" [3%nat]
           [S754_zero false; S754_zero false; S754_zero false].

Definition posed_drr : DRR collaborators :=
  mkDRR "cpu" (mkDetector 2 2 (PyFloat one) (PyFloat one) "cpu")
        (mkSiddon ones unit_spacing "cpu")
        (Some (mkParameter
                 (mkTensor Float32 "cpu" [] [S754_finite false 8388608 (-22)])
                 false))
        (Some (mkParameter zeros3 true))
        (Some (mkParameter zeros3 true)).

End Reference.

(** ** Printing the module, and the stages of the stored pose *)

Section Repr.

Context {C : Collaborators}.

(** [str(param)]: the text [torch] prints for a parameter, taken as
    given. *)
Variable str : nn_Parameter -> string.

Definition newline : string := String "010"%char EmptyString.

(** [DRR.__repr__()] *)
Definition DRR_repr (self : DRR C) : string :=
  let params := map str (parameters self) in
  if Nat.eqb (List.length params) 0
  then "Parameters uninitialized."
  else String.concat newline params.

End Repr.

Section Stages.

Context {C : Collaborators}.

Definition is_set (o : option nn_Parameter) : bool :=
  match o with
  | Some _ => true
  | None => false
  end.

(** The stored parameters are set in the order sdr, rotations,
    translations: a later one is set only if the earlier ones are. *)
Definition pose_prefix (self : DRR C) : Prop :=
  (is_set (self_translations self) = true ->
   is_set (self_rotations self) = true) /\
  (is_set (self_rotations self) = true -> is_set (self_sdr self) = true).

(** Every parameter set in [a] is set in [b]. *)
Definition still_set (a b : DRR C) : Prop :=
  (is_set (self_sdr a) = true -> is_set (self_sdr b) = true) /\
  (is_set (self_rotations a) = true -> is_set (self_rotations b) = true) /\
  (is_set (self_translations a) = true ->
   is_set (self_translations b) = true).

(** The stored parameter [o], when set, has the gradient flag [rg], the
    shape [shp] and [n] entries. *)
Definition stored_as (rg : bool) (shp : list nat) (n : nat)
    (o : option nn_Parameter) : Prop :=
  match o with
  | None => True
  | Some p =>
      requires_grad p = rg /\ t_shape (data p) = shp /\
      List.length (t_data (data p)) = n
  end.

Definition pose_layout (self : DRR C) : Prop :=
  stored_as false [] 1 (self_sdr self) /\
  stored_as true [3%nat] 3 (self_rotations self) /\
  stored_as true [3%nat] 3 (self_translations self).

(** The exception of the first scalar of [l] that does not convert. *)
Fixpoint first_failure (l : list arg) : option exn :=
  match l with
  | [] => None
  | a :: l' =>
      match store_scalar a with
      | Raises e => Some e
      | Returns _ => first_failure l'
      end
  end.

End Stages.

(** * Properties *)

(** ** Rounding to a binary format

    [binary_round] of the standard library returns a number that is valid
    in the format it rounds to. *)

Section Rounding.

Variables prec emax : Z.
Hypothesis prec_positive : 0 < prec.

Lemma fexp_ge_emin e : emin prec emax <= fexp prec emax e.
Proof. unfold fexp. lia. Qed.

Lemma fexp_monotone e e' : e <= e' -> fexp prec emax e <= fexp prec emax e'.
Proof. unfold fexp. lia. Qed.

Lemma digits2_pos_succ p :
  (Zpos (digits2_pos p) <= Zpos (digits2_pos (Pos.succ p))).
Proof.
  induction p as [p IH|p _|]; simpl; rewrite ?Pos2Z.inj_succ; lia.
Qed.

Lemma Zdigits2_succ m : 0 <= m -> Zdigits2 m <= Zdigits2 (m + 1).
Proof.
  destruct m as [|p|p]; simpl; try lia.
  intros _. rewrite Pos.add_1_r. apply digits2_pos_succ.
Qed.

Lemma Zdigits2_zero m : 0 <= m -> Zdigits2 m <= 0 -> m = 0.
Proof. destruct m; simpl; lia. Qed.

Lemma shr_1_digits mrs :
  0 <= shr_m mrs ->
  0 <= shr_m (shr_1 mrs) /\
  Zdigits2 (shr_m (shr_1 mrs)) = Z.max 0 (Zdigits2 (shr_m mrs) - 1).
Proof.
  destruct mrs as [m r s].
  destruct m as [|[p|p|]|p]; cbn [shr_1 shr_m Zdigits2 digits2_pos];
    rewrite ?Pos2Z.inj_succ; lia.
Qed.

Lemma iter_shr_1_digits n : forall mrs,
  0 <= shr_m mrs ->
  0 <= shr_m (iter_pos shr_1 n mrs) /\
  Zdigits2 (shr_m (iter_pos shr_1 n mrs))
  = Z.max 0 (Zdigits2 (shr_m mrs) - Zpos n).
Proof.
  induction n as [n IH|n IH|]; intros mrs Hm; simpl iter_pos.
  - destruct (shr_1_digits mrs Hm) as (H1 & E1).
    destruct (IH _ H1) as (H2 & E2). destruct (IH _ H2) as (H3 & E3).
    split; [assumption|]. rewrite E3, E2, E1. lia.
  - destruct (IH _ Hm) as (H2 & E2). destruct (IH _ H2) as (H3 & E3).
    split; [assumption|]. rewrite E3, E2. lia.
  - apply shr_1_digits; assumption.
Qed.

Lemma iter_xO_digits d : forall m,
  Zpos (digits2_pos (Pos.iter xO m d)) = Zpos (digits2_pos m) + Zpos d.
Proof.
  induction d as [d IH|d IH|]; intros m; simpl Pos.iter.
  - simpl digits2_pos. rewrite Pos2Z.inj_succ, IH, IH. lia.
  - rewrite IH, IH. lia.
  - simpl. lia.
Qed.

(** Shifting a mantissa right down to the exponent of the format leaves a
    canonical mantissa, or nothing of it at the least exponent. *)
Lemma shr_fexp_canonical m e l :
  0 <= m -> e <= fexp prec emax (Zdigits2 m + e) ->
  let '(mrs, e') := shr_fexp prec emax m e l in
  0 <= shr_m mrs /\
  (fexp prec emax (Zdigits2 (shr_m mrs) + e') = e' \/
   shr_m mrs = 0 /\ e' = emin prec emax).
Proof.
  intros Hm He. unfold shr_fexp, shr.
  assert (Hrec : shr_m (shr_record_of_loc m l) = m)
    by (destruct l as [|[]]; reflexivity).
  destruct (fexp prec emax (Zdigits2 m + e) - e) as [|n|n] eqn:En;
    try (rewrite Hrec; split; [assumption|left; lia]).
  destruct (iter_shr_1_digits n (shr_record_of_loc m l)) as (H0 & Ed);
    [rewrite Hrec; assumption|].
  rewrite Hrec in Ed. split; [assumption|].
  destruct (Z_lt_le_dec (Zpos n) (Zdigits2 m)) as [Hlt|Hge].
  - left. rewrite Ed.
    replace (Z.max 0 (Zdigits2 m - Zpos n) + (e + Zpos n))
      with (Zdigits2 m + e) by lia.
    lia.
  - right. split.
    + apply Zdigits2_zero; [assumption|]. rewrite Ed. lia.
    + unfold fexp in En. unfold emin in *. lia.
Qed.

Lemma binary_round_aux_valid sx mx ex lx :
  0 <= mx -> ex <= fexp prec emax (Zdigits2 mx + ex) ->
  valid_binary prec emax (binary_round_aux prec emax sx mx ex lx) = true.
Proof.
  intros Hm He. unfold binary_round_aux.
  pose proof (shr_fexp_canonical mx ex lx Hm He) as H1.
  destruct (shr_fexp prec emax mx ex lx) as [mrs' e'].
  destruct H1 as (Hm' & Hc').
  set (m'' := round_nearest_even (shr_m mrs') (loc_of_shr_record mrs')).
  assert (Hr : m'' = shr_m mrs' \/ m'' = shr_m mrs' + 1).
  { unfold m'', round_nearest_even.
    destruct (loc_of_shr_record mrs') as [|[]]; auto.
    destruct (Z.even (shr_m mrs')); auto. }
  assert (Hm'' : 0 <= m'') by lia.
  assert (He' : e' <= fexp prec emax (Zdigits2 m'' + e')).
  { destruct Hc' as [Hc'|(_ & ->)]; [|apply fexp_ge_emin].
    rewrite <- Hc' at 1. apply fexp_monotone.
    destruct Hr as [->| ->]; [lia|].
    pose proof (Zdigits2_succ _ Hm'). lia. }
  pose proof (shr_fexp_canonical m'' e' loc_Exact Hm'' He') as H2.
  destruct (shr_fexp prec emax m'' e' loc_Exact) as [mrs'' e''].
  destruct H2 as (_ & Hc'').
  destruct (shr_m mrs'') as [|m|m] eqn:Em; trivial.
  destruct (Z.leb e'' (emax - prec)) eqn:Hle; trivial.
  cbn [valid_binary]. unfold bounded, canonical_mantissa.
  destruct Hc'' as [Hc''|(Hz & _)]; [|discriminate].
  cbn [Zdigits2] in Hc''. rewrite Hc'', Z.eqb_refl. exact Hle.
Qed.

(** Rounding to a format gives a number of the format. *)
Lemma binary_round_valid sx mx ex :
  valid_binary prec emax (binary_round prec emax sx mx ex) = true.
Proof.
  unfold binary_round, shl_align.
  destruct (fexp prec emax (Zpos (digits2_pos mx) + ex) - ex) as [|d|d] eqn:Ed;
    apply binary_round_aux_valid; try lia; simpl Zdigits2; try lia.
  rewrite iter_xO_digits.
  replace (Zpos (digits2_pos mx) + Zpos d +
           fexp prec emax (Zpos (digits2_pos mx) + ex))
    with (Zpos (digits2_pos mx) + ex) by lia.
  lia.
Qed.

(** A number of the format is its own rounding. *)
Lemma binary_round_bounded sx mx ex :
  bounded prec emax mx ex = true ->
  binary_round prec emax sx mx ex = S754_finite sx mx ex.
Proof.
  unfold bounded, canonical_mantissa. intros H.
  apply andb_true_iff in H. destruct H as (Hc & Hle).
  apply Z.eqb_eq in Hc.
  unfold binary_round, shl_align. rewrite Hc, Z.sub_diag.
  unfold binary_round_aux, shr_fexp. cbn [Zdigits2 shr_record_of_loc].
  rewrite Hc, Z.sub_diag. cbn [shr shr_m loc_of_shr_record round_nearest_even].
  cbn [Zdigits2 shr_record_of_loc]. rewrite Hc, Z.sub_diag.
  cbn [shr shr_m]. now rewrite Hle.
Qed.

End Rounding.

(** ** Tensor conversion *)

Lemma store_scalar_None : store_scalar None = Raises TypeError.
Proof. reflexivity. Qed.

Lemma tensor_of_scalar_None dev : tensor_of_scalar None dev = Raises TypeError.
Proof. reflexivity. Qed.

Lemma to_float32_binary32 x : is_binary32 (to_float32 x) = true.
Proof.
  destruct x as [s|s| |s m e]; try reflexivity.
  apply binary_round_valid. reflexivity.
Qed.

Lemma to_float32_exact x : is_binary32 x = true -> to_float32 x = x.
Proof.
  destruct x as [s|s| |s m e]; try reflexivity.
  intros H. apply binary_round_bounded. exact H.
Qed.

Lemma store_scalar_stored a v : store_scalar a = Returns v -> stored_for a v.
Proof.
  unfold store_scalar, stored_for.
  destruct (as_double a) as [x|e]; simpl; [|discriminate].
  intros [= <-]. exists x. repeat split.
  - apply to_float32_binary32.
  - apply to_float32_exact.
Qed.

Lemma tensor_of_scalar_stored a dev t :
  tensor_of_scalar a dev = Returns t ->
  exists v, stored_for a v /\ t = mkTensor Float32 dev [] [v].
Proof.
  unfold tensor_of_scalar.
  destruct (store_scalar a) as [v|e] eqn:E; simpl; [|discriminate].
  intros [= <-]. exists v. split; [now apply store_scalar_stored|reflexivity].
Qed.

Lemma tensor_of_triple_stored a b c dev t :
  tensor_of_list [a; b; c] dev = Returns t ->
  exists va vb vc,
    stored_for a va /\ stored_for b vb /\ stored_for c vc /\
    t = mkTensor Float32 dev [3%nat] [va; vb; vc].
Proof.
  unfold tensor_of_list. cbn [mapM].
  destruct (store_scalar a) as [va|e] eqn:Ea; cbn [bind]; [|discriminate].
  destruct (store_scalar b) as [vb|e] eqn:Eb; cbn [bind]; [|discriminate].
  destruct (store_scalar c) as [vc|e] eqn:Ec; cbn [bind]; [|discriminate].
  intros [= <-]. exists va, vb, vc.
  repeat split; now apply store_scalar_stored.
Qed.

Lemma store_scalar_binary32 a v :
  store_scalar a = Returns v -> is_binary32 v = true.
Proof.
  unfold store_scalar. destruct (as_double a) as [x|e]; simpl.
  - intros [= <-]. apply to_float32_binary32.
  - discriminate.
Qed.

Lemma mapM_store_scalar_binary32 l : forall vs,
  mapM store_scalar l = Returns vs ->
  Forall (fun v => is_binary32 v = true) vs.
Proof.
  induction l as [|a l IH]; simpl; intros vs.
  - intros [= <-]. constructor.
  - case_eq (store_scalar a); [intros v Hv|intros e _]; simpl; try discriminate.
    destruct (mapM store_scalar l) as [vs'|e]; simpl; try discriminate.
    intros [= <-]. constructor; [eapply store_scalar_binary32; eassumption|].
    now apply IH.
Qed.

(** A list with an omitted entry does not convert. *)
Lemma mapM_store_scalar_omitted l :
  forallb is_not_None l = false -> exists e, mapM store_scalar l = Raises e.
Proof.
  induction l as [|a l IH]; simpl; [discriminate|].
  destruct a as [n|]; simpl.
  - intros H. destruct (store_scalar (Some n)); simpl; [|eauto].
    destruct (IH H) as [e ->]. simpl. eauto.
  - eauto.
Qed.

Lemma tensor_of_list_omitted l dev :
  forallb is_not_None l = false -> exists e, tensor_of_list l dev = Raises e.
Proof.
  intros H. unfold tensor_of_list.
  destruct (mapM_store_scalar_omitted l H) as [e ->]. simpl. eauto.
Qed.

Lemma tensor_of_scalar_float32 a dev t :
  tensor_of_scalar a dev = Returns t ->
  t_dtype t = Float32 /\ t_device t = dev /\
  Forall (fun v => is_binary32 v = true) (t_data t).
Proof.
  unfold tensor_of_scalar. case_eq (store_scalar a); simpl; try discriminate.
  intros v Hv [= <-]. simpl. repeat split; trivial.
  constructor; [eapply store_scalar_binary32; eassumption|constructor].
Qed.

Lemma tensor_of_list_float32 l dev t :
  tensor_of_list l dev = Returns t ->
  t_dtype t = Float32 /\ t_device t = dev /\
  Forall (fun v => is_binary32 v = true) (t_data t).
Proof.
  unfold tensor_of_list. case_eq (mapM store_scalar l); simpl; try discriminate.
  intros vs Hvs [= <-]. simpl. repeat split; trivial.
  now apply (mapM_store_scalar_binary32 l).
Qed.

(** ** The methods, step by step *)

Section MethodFacts.

Context {C : Collaborators}.

(** [initialize_parameters] assigns in the order sdr, rotations,
    translations, and stops at the first conversion that raises. *)
Lemma initialize_parameters_steps sdr theta phi gamma bx by_ bz self :
  initialize_parameters sdr theta phi gamma bx by_ bz self =
  let dev := self_device self in
  match tensor_of_scalar sdr dev with
  | Raises e => (Raises e, self)
  | Returns ts =>
      let self1 := with_sdr self (mkParameter ts false) in
      match tensor_of_list [theta; phi; gamma] dev with
      | Raises e => (Raises e, self1)
      | Returns tr =>
          let self2 := with_rotations self1 (mkParameter tr true) in
          match tensor_of_list [bx; by_; bz] dev with
          | Raises e => (Raises e, self2)
          | Returns tt' =>
              (Returns tt, with_translations self2 (mkParameter tt' true))
          end
      end
  end.
Proof.
  unfold initialize_parameters, mbind, read, eval. simpl.
  destruct (tensor_of_scalar sdr (self_device self)); simpl;
    [|reflexivity].
  destruct (tensor_of_list [theta; phi; gamma] (self_device self));
    simpl; [|reflexivity].
  destruct (tensor_of_list [bx; by_; bz] (self_device self)); reflexivity.
Qed.

(** With every argument omitted [forward] goes straight to rendering. *)
Lemma forward_omitted self :
  forward None None None None None None None self = (render self, self).
Proof.
  unfold forward, render, mbind, read, eval, ret. simpl.
  destruct (make_xrays _ _ _ _) as [xr|e]; simpl; trivial.
  destruct (raytrace _ _ _); trivial.
Qed.

(** With some argument supplied [forward] sets the pose first, and
    renders if that returned. *)
Lemma forward_supplied sdr theta phi gamma bx by_ bz self :
  any_is_not_None [sdr; theta; phi; gamma; bx; by_; bz] = true ->
  forward sdr theta phi gamma bx by_ bz self =
  match initialize_parameters sdr theta phi gamma bx by_ bz self with
  | (Returns _, self') => (render self', self')
  | (Raises e, self') => (Raises e, self')
  end.
Proof.
  intros Hany. unfold forward. rewrite Hany.
  unfold mbind at 1.
  destruct (initialize_parameters sdr theta phi gamma bx by_ bz self)
    as [[u|e] self']; trivial.
  unfold render, mbind, read, eval, ret. simpl.
  destruct (make_xrays _ _ _ _) as [xr|e]; simpl; trivial.
  destruct (raytrace _ _ _); trivial.
Qed.

(** A freshly constructed object has no pose. *)
Lemma DRR_init_fresh vol sp h dx w dy dev self :
  DRR_init vol sp h dx w dy dev = Returns self ->
  self_sdr self = None /\ self_rotations self = None /\
  self_translations self = None.
Proof.
  unfold DRR_init.
  destruct (get_device dev); simpl; try discriminate.
  destruct (new_Detector _ _ _ _ _); simpl; try discriminate.
  destruct (new_Siddon _ _ _); simpl; try discriminate.
  intros [= <-]. auto.
Qed.

(** What the constructor has called when it returns. *)
Lemma DRR_init_returns vol sp h dx w dy dev self :
  DRR_init vol sp h dx w dy dev = Returns self ->
  get_device dev = Returns (self_device self) /\
  new_Detector h (match w with None => h | Some w' => w' end) dx dx dev
    = Returns (self_detector self) /\
  new_Siddon vol sp dev = Returns (self_siddon self).
Proof.
  unfold DRR_init.
  destruct (get_device dev); simpl; try discriminate.
  destruct dy; destruct (new_Detector _ _ _ _ _); simpl; try discriminate;
    destruct (new_Siddon _ _ _); simpl; try discriminate;
    intros [= <-]; auto.
Qed.

(** The supplied [dely] does not reach the detector. *)
Lemma DRR_init_dely_ignored vol sp h dx w dy dev :
  DRR_init vol sp h dx w (Some dy) dev = DRR_init vol sp h dx w None dev.
Proof. reflexivity. Qed.

Lemma initialize_parameters_components sdr theta phi gamma bx by_ bz self :
  same_components
    (snd (initialize_parameters sdr theta phi gamma bx by_ bz self)) self.
Proof.
  rewrite initialize_parameters_steps. unfold same_components. simpl.
  destruct (tensor_of_scalar _ _); simpl; auto.
  destruct (tensor_of_list [theta; phi; gamma] _); simpl; auto.
  destruct (tensor_of_list [bx; by_; bz] _); simpl; auto.
Qed.

Lemma forward_state sdr theta phi gamma bx by_ bz self :
  snd (forward sdr theta phi gamma bx by_ bz self) =
  if any_is_not_None [sdr; theta; phi; gamma; bx; by_; bz]
  then snd (initialize_parameters sdr theta phi gamma bx by_ bz self)
  else self.
Proof.
  case_eq (any_is_not_None [sdr; theta; phi; gamma; bx; by_; bz]); intros Hany.
  - rewrite (forward_supplied _ _ _ _ _ _ _ _ Hany).
    destruct (initialize_parameters _ _ _ _ _ _ _ _) as [[u|e] self'];
      reflexivity.
  - unfold forward. rewrite Hany.
    unfold mbind, read, eval, ret. simpl.
    destruct (make_xrays _ _ _ _) as [xr|e]; simpl; trivial.
    destruct (raytrace _ _ _); trivial.
Qed.

Lemma after_components c self : same_components (after c self) self.
Proof.
  destruct c as [s t p g x y z|s t p g x y z]; simpl.
  - rewrite forward_state.
    destruct (any_is_not_None _).
    + apply initialize_parameters_components.
    + unfold same_components; auto.
  - apply initialize_parameters_components.
Qed.

Lemma reachable_components self0 self :
  reachable self0 self -> same_components self self0.
Proof.
  induction 1 as [|self c _ IH].
  - unfold same_components; auto.
  - destruct (after_components c self) as (Hd & Hdet & Hsid).
    destruct IH as (Hd' & Hdet' & Hsid').
    unfold same_components. repeat split; congruence.
Qed.

End MethodFacts.

(** ** Rendering before any pose is set *)

(** C1, as the code has it: on a freshly constructed orchestrator,
    [forward] with all seven arguments omitted makes no check of its own.
    It leaves the object as constructed and hands the three unset
    parameters ([None]) to [detector.make_xrays]; its outcome is the
    outcome of [make_xrays] on them followed by [raytrace], so it raises
    only what one of those two raises. *)
Theorem forward_fresh_delegates {C : Collaborators}
    vol sp h dx w dy dev (self : DRR C) :
  DRR_init vol sp h dx w dy dev = Returns self ->
  forward None None None None None None None self =
  ((xr <- make_xrays (self_detector self) None None None ;;
    raytrace (self_siddon self) (fst xr) (snd xr))%py, self).
Proof.
  intros Hinit.
  destruct (DRR_init_fresh _ _ _ _ _ _ _ _ Hinit) as (Hs & Hr & Ht).
  rewrite forward_omitted. unfold render. now rewrite Hs, Hr, Ht.
Qed.

Lemma forward_fresh_delegates_witness :
  DRR_init (C := Reference.collaborators) Reference.ones Reference.unit_spacing
           2 (PyFloat Reference.one) None None "cpu"
  = Returns Reference.fresh_drr /\
  forward None None None None None None None Reference.fresh_drr =
  (Raises TypeError, Reference.fresh_drr).
Proof.
  split; [reflexivity|].
  exact (forward_fresh_delegates (C := Reference.collaborators)
           Reference.ones Reference.unit_spacing 2
           (PyFloat Reference.one) None None "cpu" Reference.fresh_drr
           eq_refl).
Defined.

(** C1, as stated, fails: the 2x2 detector over the volume of ones is
    constructed, [forward()] is called on it before any pose is set, and
    the error that reaches the caller is the [TypeError] of the ray
    generator, not an [UninitializedPoseError]. *)
Lemma forward_fresh_not_UninitializedPoseError :
  DRR_init (C := Reference.collaborators) Reference.ones Reference.unit_spacing 2 (PyFloat Reference.one)
           None None "cpu" = Returns Reference.fresh_drr /\
  fst (forward None None None None None None None Reference.fresh_drr)
    = Raises TypeError /\
  fst (forward None None None None None None None Reference.fresh_drr)
    <> Raises Reference.UninitializedPoseError.
Proof.
  split; [reflexivity|]. split; [reflexivity|].
  vm_compute. discriminate.
Qed.

(** ** The detector built by the constructor *)

(** An omitted [width] defaults to [height], a supplied one is used. *)
Lemma DRR_init_width {C : Collaborators} vol sp h dx w dy dev (self : DRR C) :
  DRR_init vol sp h dx w dy dev = Returns self ->
  exists dy',
    new_Detector h (match w with None => h | Some w' => w' end) dx dy' dev
    = Returns (self_detector self).
Proof.
  intros H. exists dx. now destruct (DRR_init_returns _ _ _ _ _ _ _ _ H) as (_ & ? & _).
Qed.

(** C2, at the failing input: constructing with height 2, delx 1.0 and a
    supplied dely of 2.0 returns exactly the object that omitting dely
    returns, and the detector it holds has dely 1.0 (the value of delx),
    not the supplied 2.0. *)
Theorem DRR_init_supplied_dely_replaced :
  DRR_init (C := Reference.collaborators) Reference.ones Reference.unit_spacing 2 (PyFloat Reference.one)
           None (Some (PyFloat Reference.two)) "cpu"
  = Returns Reference.fresh_drr /\
  DRR_init (C := Reference.collaborators) Reference.ones Reference.unit_spacing 2 (PyFloat Reference.one)
           None None "cpu"
  = Returns Reference.fresh_drr /\
  Reference.dely (self_detector Reference.fresh_drr) = PyFloat Reference.one /\
  Reference.dely (self_detector Reference.fresh_drr) <> PyFloat Reference.two.
Proof.
  repeat split; try reflexivity. simpl. discriminate.
Qed.

(** ** Rendering with and without new parameters *)

(** C5: for seven supplied numbers, [forward] with them is
    [initialize_parameters] with them followed by [forward] with nothing:
    the same outcome (image or exception) and the same attributes
    afterwards. *)
Theorem forward_is_initialize_then_forward {C : Collaborators}
    (sdr theta phi gamma bx by_ bz : num) (self : DRR C) :
  forward (Some sdr) (Some theta) (Some phi) (Some gamma)
          (Some bx) (Some by_) (Some bz) self =
  (initialize_parameters (Some sdr) (Some theta) (Some phi) (Some gamma)
                         (Some bx) (Some by_) (Some bz) ;;
   forward None None None None None None None)%method self.
Proof.
  rewrite forward_supplied by reflexivity.
  unfold mbind.
  destruct (initialize_parameters _ _ _ _ _ _ _ self) as [[u|e] self'].
  - now rewrite forward_omitted.
  - reflexivity.
Qed.

(** C6: [forward] with all seven arguments omitted leaves every attribute
    of the object, the stored sdr, rotations and translations among them,
    as it was, and its outcome is the rendering of that stored pose. *)
Theorem forward_omitted_keeps_pose {C : Collaborators} (self : DRR C) :
  let out := forward None None None None None None None self in
  snd out = self /\
  self_sdr (snd out) = self_sdr self /\
  self_rotations (snd out) = self_rotations self /\
  self_translations (snd out) = self_translations self /\
  fst out =
    (xr <- make_xrays (self_detector self) (self_sdr self)
             (self_rotations self) (self_translations self) ;;
     raytrace (self_siddon self) (fst xr) (snd xr))%py.
Proof.
  simpl. rewrite forward_omitted. simpl. repeat split.
Qed.

(** ** Partial poses *)

(** C3, at a concrete call: on the object whose stored sdr is 2.0,
    [forward(sdr=1.0)] raises, and the stored sdr is 1.0 afterwards. *)
Lemma forward_partial_pose_replaces_sdr :
  let out := forward (Some (PyFloat Reference.one)) None None None None None
                     None Reference.posed_drr in
  fst out = Raises TypeError /\
  self_sdr Reference.posed_drr =
    Some (mkParameter
            (mkTensor Float32 "cpu" [] [S754_finite false 8388608 (-22)]) false) /\
  self_sdr (snd out) =
    Some (mkParameter
            (mkTensor Float32 "cpu" [] [S754_finite false 8388608 (-23)]) false) /\
  self_sdr (snd out) <> self_sdr Reference.posed_drr.
Proof.
  vm_compute. repeat split; discriminate.
Qed.

(** C3, as the code has it: a call to [forward] that supplies at least
    one but not all seven pose scalars raises, from the tensor conversion
    in [initialize_parameters].  The stored translations are as they were;
    the stored rotations are as they were unless theta, phi and gamma were
    all supplied; the whole object is as it was when sdr is omitted.  But
    a supplied sdr that converts has already replaced the stored sdr, and
    rotations that convert after it have replaced the stored rotations. *)
Theorem forward_partial_pose {C : Collaborators}
    (sdr theta phi gamma bx by_ bz : arg) (self : DRR C) :
  any_is_not_None [sdr; theta; phi; gamma; bx; by_; bz] = true ->
  forallb is_not_None [sdr; theta; phi; gamma; bx; by_; bz] = false ->
  let out := forward sdr theta phi gamma bx by_ bz self in
  let dev := self_device self in
  (exists e, fst out = Raises e) /\
  self_translations (snd out) = self_translations self /\
  (forallb is_not_None [theta; phi; gamma] = false ->
   self_rotations (snd out) = self_rotations self) /\
  (sdr = None -> snd out = self) /\
  (forall ts, tensor_of_scalar sdr dev = Returns ts ->
              self_sdr (snd out) = Some (mkParameter ts false)) /\
  (forall ts tr, tensor_of_scalar sdr dev = Returns ts ->
                 tensor_of_list [theta; phi; gamma] dev = Returns tr ->
                 self_rotations (snd out) = Some (mkParameter tr true)).
Proof.
  intros Hany Hall out dev. subst out.
  rewrite (forward_supplied _ _ _ _ _ _ _ _ Hany).
  rewrite initialize_parameters_steps. fold dev. cbv zeta.
  destruct (tensor_of_scalar sdr dev) as [ts|e] eqn:Hs.
  - (* sdr converted: it is supplied, so an angle or an offset is omitted *)
    assert (Hsdr : sdr <> None).
    { intros ->. rewrite tensor_of_scalar_None in Hs. discriminate. }
    assert (Hrest : forallb is_not_None [theta; phi; gamma] = false \/
                    forallb is_not_None [bx; by_; bz] = false).
    { change (is_not_None sdr &&
              forallb is_not_None ([theta; phi; gamma] ++ [bx; by_; bz])
              = false)%bool in Hall.
      rewrite forallb_app in Hall.
      destruct sdr; [|congruence].
      apply andb_false_iff in Hall. destruct Hall as [Hall|Hall];
        [discriminate|].
      apply andb_false_iff in Hall. exact Hall. }
    destruct (tensor_of_list [theta; phi; gamma] dev) as [tr|e] eqn:Hr.
    + assert (Hangles : forallb is_not_None [theta; phi; gamma] = true).
      { destruct (forallb is_not_None [theta; phi; gamma]) eqn:E; trivial.
        destruct (tensor_of_list_omitted _ dev E) as [e He]. congruence. }
      destruct Hrest as [Hrest|Hrest]; [congruence|].
      destruct (tensor_of_list_omitted _ dev Hrest) as [e ->].
      cbn [fst snd]. split; [eauto|]. split; [reflexivity|].
      split; [congruence|]. split; [congruence|].
      split; [now intros ? [= <-]|now intros ? ? [= <-] [= <-]].
    + cbn [fst snd]. split; [eauto|]. split; [reflexivity|].
      split; [reflexivity|]. split; [congruence|].
      split; [now intros ? [= <-]|now intros ? ? _ [=]].
  - cbn [fst snd]. split; [eauto|]. split; [reflexivity|].
    split; [reflexivity|]. split; [reflexivity|].
    split; [now intros ? [=]|now intros ? ? [=]].
Qed.

Lemma forward_partial_pose_witness :
  let out := forward (Some (PyFloat Reference.one)) None None None None None
                     None Reference.posed_drr in
  any_is_not_None [Some (PyFloat Reference.one); None; None; None; None; None;
                   None] = true /\
  forallb is_not_None [Some (PyFloat Reference.one); None; None; None; None;
                       None; None] = false /\
  (exists e, fst out = Raises e) /\
  self_translations (snd out) = self_translations Reference.posed_drr.
Proof.
  cbv zeta. split; [reflexivity|]. split; [reflexivity|].
  pose proof (forward_partial_pose (C := Reference.collaborators)
                (Some (PyFloat Reference.one)) None None None None None None
                Reference.posed_drr eq_refl eq_refl) as H.
  cbv zeta in H. destruct H as (He & Ht & _).
  split; [exact He|exact Ht].
Defined.

(** ** Gradients of the stored pose *)

(** C4, at a concrete pose: after [initialize_parameters(2.0, 0, 0, 0, 0,
    0, 0)] on the fresh object the stored sdr has [requires_grad] false. *)
Lemma initialize_parameters_sdr_not_differentiable :
  initialize_parameters
    (Some (PyFloat Reference.two)) (Some (PyInt 0)) (Some (PyInt 0))
    (Some (PyInt 0)) (Some (PyInt 0)) (Some (PyInt 0)) (Some (PyInt 0))
    Reference.fresh_drr
  = (Returns tt, Reference.posed_drr) /\
  option_map requires_grad (self_sdr Reference.posed_drr) = Some false /\
  option_map requires_grad (self_sdr Reference.posed_drr) <> Some true.
Proof.
  split; [reflexivity|]. split; [reflexivity|]. simpl. discriminate.
Qed.

(** C4, as the code has it: once [initialize_parameters] has returned,
    sdr, rotations and translations are the three registered parameters of
    the module; rotations (theta, phi, gamma) and translations (bx, by, bz)
    require gradients, and sdr does not: the pose is differentiable in six
    of its seven scalars, sdr being taken as given. *)
Theorem initialize_parameters_requires_grad {C : Collaborators}
    (sdr theta phi gamma bx by_ bz : arg) (self : DRR C) :
  fst (initialize_parameters sdr theta phi gamma bx by_ bz self) = Returns tt ->
  let self' := snd (initialize_parameters sdr theta phi gamma bx by_ bz self) in
  exists ps pr pt,
    self_sdr self' = Some ps /\
    self_rotations self' = Some pr /\
    self_translations self' = Some pt /\
    parameters self' = [ps; pr; pt] /\
    requires_grad ps = false /\
    requires_grad pr = true /\
    requires_grad pt = true.
Proof.
  rewrite initialize_parameters_steps. cbv zeta.
  destruct (tensor_of_scalar _ _) as [ts|e]; [|discriminate].
  destruct (tensor_of_list [theta; phi; gamma] _) as [tr|e]; [|discriminate].
  destruct (tensor_of_list [bx; by_; bz] _) as [tt'|e]; [|discriminate].
  intros _. cbn [snd].
  exists (mkParameter ts false), (mkParameter tr true), (mkParameter tt' true).
  repeat split.
Qed.

Lemma initialize_parameters_requires_grad_witness :
  fst (initialize_parameters
         (Some (PyFloat Reference.two)) (Some (PyInt 0)) (Some (PyInt 0))
         (Some (PyInt 0)) (Some (PyInt 0)) (Some (PyInt 0)) (Some (PyInt 0))
         Reference.fresh_drr) = Returns tt /\
  exists ps pr pt,
    self_sdr Reference.posed_drr = Some ps /\
    self_rotations Reference.posed_drr = Some pr /\
    self_translations Reference.posed_drr = Some pt /\
    parameters Reference.posed_drr = [ps; pr; pt] /\
    requires_grad ps = false /\
    requires_grad pr = true /\
    requires_grad pt = true.
Proof.
  split; [reflexivity|].
  exact (initialize_parameters_requires_grad (C := Reference.collaborators)
           (Some (PyFloat Reference.two)) (Some (PyInt 0)) (Some (PyInt 0))
           (Some (PyInt 0)) (Some (PyInt 0)) (Some (PyInt 0)) (Some (PyInt 0))
           Reference.fresh_drr eq_refl).
Defined.

(** ** Detector geometry at construction *)

(** C7, at concrete calls: over the volume of ones, on the cpu, the
    constructor returns an orchestrator for a height of -1, for a width of
    0, for a delx of -1.0 and for a dely of -1.0; in none of the four does
    it raise a ShapeMismatchError.  The detector it holds has the height,
    width and delx it was given. *)
Lemma DRR_init_nonpositive_geometry_accepted :
  DRR_init (C := Reference.collaborators) Reference.ones Reference.unit_spacing
           (-1) (PyFloat Reference.one) None None "cpu"
  = Returns
      (@mkDRR Reference.collaborators "cpu"
         (Reference.mkDetector (-1) (-1) (PyFloat Reference.one)
            (PyFloat Reference.one) "cpu")
         (Reference.mkSiddon Reference.ones Reference.unit_spacing "cpu")
         None None None) /\
  DRR_init (C := Reference.collaborators) Reference.ones Reference.unit_spacing
           2 (PyFloat Reference.one) (Some 0) None "cpu"
  = Returns
      (@mkDRR Reference.collaborators "cpu"
         (Reference.mkDetector 2 0 (PyFloat Reference.one)
            (PyFloat Reference.one) "cpu")
         (Reference.mkSiddon Reference.ones Reference.unit_spacing "cpu")
         None None None) /\
  DRR_init (C := Reference.collaborators) Reference.ones Reference.unit_spacing
           2 (PyFloat Reference.minus_one) None None "cpu"
  = Returns
      (@mkDRR Reference.collaborators "cpu"
         (Reference.mkDetector 2 2 (PyFloat Reference.minus_one)
            (PyFloat Reference.minus_one) "cpu")
         (Reference.mkSiddon Reference.ones Reference.unit_spacing "cpu")
         None None None) /\
  DRR_init (C := Reference.collaborators) Reference.ones Reference.unit_spacing
           2 (PyFloat Reference.one) None (Some (PyFloat Reference.minus_one))
           "cpu"
  = Returns Reference.fresh_drr /\
  DRR_init (C := Reference.collaborators) Reference.ones Reference.unit_spacing
           (-1) (PyFloat Reference.one) None None "cpu"
  <> Raises Reference.ShapeMismatchError.
Proof.
  repeat (split; [reflexivity|]). vm_compute. discriminate.
Qed.

(** C7, as the code has it: the constructor checks no geometry and raises
    no error of its own.  When it returns, the device, the detector and
    the tracer of the object are what [get_device], the [Detector]
    constructor - given height, width (height when omitted) and delx as
    they came - and the [Siddon] constructor returned, and no pose is
    set.  When it raises, the exception is the one that one of these three
    raised: whatever geometry they accept, the orchestrator accepts, and a
    geometry error can only be theirs, at construction. *)
Theorem DRR_init_checks_no_geometry {C : Collaborators}
    vol sp h dx w dy dev :
  let w' := match w with None => h | Some w0 => w0 end in
  match DRR_init vol sp h dx w dy dev with
  | Returns self =>
      get_device dev = Returns (self_device self) /\
      (exists dy', new_Detector h w' dx dy' dev
                   = Returns (self_detector self)) /\
      new_Siddon vol sp dev = Returns (self_siddon self) /\
      self_sdr self = None /\ self_rotations self = None /\
      self_translations self = None
  | Raises e =>
      get_device dev = Raises e \/
      (exists d dy', get_device dev = Returns d /\
                     new_Detector h w' dx dy' dev = Raises e) \/
      (exists d det dy', get_device dev = Returns d /\
                         new_Detector h w' dx dy' dev = Returns det /\
                         new_Siddon vol sp dev = Raises e)
  end.
Proof.
  intros w'. unfold DRR_init. fold w'.
  destruct (get_device dev) as [d|e]; cbn [bind]; [|now left].
  assert (Hdy : (match dy with None => dx | Some _ => dx end) = dx)
    by (destruct dy; reflexivity).
  rewrite Hdy.
  destruct (new_Detector h w' dx dx dev) as [det|e] eqn:Hdet; cbn [bind].
  - destruct (new_Siddon vol sp dev) as [sid|e] eqn:Hsid; cbn [bind].
    + cbn. repeat split; eauto.
    + right. right. exists d, det, dx. auto.
  - right. left. exists d, dx. auto.
Qed.

(** ** The produced image *)

Section Rendered.

Context {C : Collaborators}.

(** Whatever [forward] returns is the rendering of the pose the object
    holds when it returns. *)
Lemma forward_renders_stored_pose sdr theta phi gamma bx by_ bz
    (self : DRR C) img :
  fst (forward sdr theta phi gamma bx by_ bz self) = Returns img ->
  render (snd (forward sdr theta phi gamma bx by_ bz self)) = Returns img.
Proof.
  case_eq (any_is_not_None [sdr; theta; phi; gamma; bx; by_; bz]);
    intros Hany.
  - rewrite (forward_supplied _ _ _ _ _ _ _ _ Hany).
    destruct (initialize_parameters _ _ _ _ _ _ _ _) as [[u|e] self'];
      cbn [fst snd]; [trivial|discriminate].
  - unfold any_is_not_None in Hany. simpl in Hany.
    destruct sdr, theta, phi, gamma, bx, by_, bz; try discriminate.
    rewrite forward_omitted. trivial.
Qed.

End Rendered.

(** ** The stored pose is float32 on the device of construction *)

Section StoredPose.

Context {C : Collaborators}.

Lemma initialize_parameters_float32 sdr theta phi gamma bx by_ bz self :
  pose_float32 self ->
  pose_float32 (snd (initialize_parameters sdr theta phi gamma bx by_ bz self)).
Proof.
  intros (Hs & Hr & Ht). rewrite initialize_parameters_steps. cbv zeta.
  destruct (tensor_of_scalar _ _) as [ts|e] eqn:Es; cbn [snd];
    [|now repeat split].
  apply tensor_of_scalar_float32 in Es.
  destruct (tensor_of_list [theta; phi; gamma] _) as [tr|e] eqn:Er;
    cbn [snd]; [|now repeat split].
  apply tensor_of_list_float32 in Er.
  destruct (tensor_of_list [bx; by_; bz] _) as [tt'|e] eqn:Et;
    cbn [snd]; [|now repeat split].
  apply tensor_of_list_float32 in Et.
  now repeat split.
Qed.

Lemma after_float32 c self : pose_float32 self -> pose_float32 (after c self).
Proof.
  intros H. destruct c as [s t p g x y z|s t p g x y z]; simpl.
  - rewrite forward_state. destruct (any_is_not_None _); trivial.
    now apply initialize_parameters_float32.
  - now apply initialize_parameters_float32.
Qed.

Lemma reachable_float32 self0 self :
  pose_float32 self0 -> reachable self0 self -> pose_float32 self.
Proof.
  intros H0. induction 1 as [|self c _ IH]; [assumption|].
  now apply after_float32.
Qed.

End StoredPose.

(** C10: on an orchestrator constructed for [device], after any calls,
    whenever [initialize_parameters] - called directly or by [forward] -
    returns, that is, whenever a pose is stored, the object holds sdr as
    a 0-d tensor and (theta, phi, gamma), (bx, by, bz) as 3-vectors, all
    three of dtype float32 on the device that [get_device(device)]
    returned at construction.  Each of the seven entries is what is
    stored for the scalar supplied in its place, int or float: the
    float32 cast of its double, a binary32 number, and the double
    itself when the double is a float32 already.  What the object held
    before the call was float32 on that device too. *)
Theorem stored_pose_float32 {C : Collaborators}
    vol sp h dx w dy dev (self0 self : DRR C)
    (sdr theta phi gamma bx by_ bz : arg) :
  DRR_init vol sp h dx w dy dev = Returns self0 ->
  reachable self0 self ->
  fst (initialize_parameters sdr theta phi gamma bx by_ bz self) = Returns tt ->
  exists d v_sdr v_theta v_phi v_gamma v_bx v_by v_bz,
    get_device dev = Returns d /\
    stored_for sdr v_sdr /\
    stored_for theta v_theta /\ stored_for phi v_phi /\
    stored_for gamma v_gamma /\
    stored_for bx v_bx /\ stored_for by_ v_by /\ stored_for bz v_bz /\
    snd (initialize_parameters sdr theta phi gamma bx by_ bz self)
    = mkDRR d (self_detector self0) (self_siddon self0)
        (Some (mkParameter (mkTensor Float32 d [] [v_sdr]) false))
        (Some (mkParameter
                 (mkTensor Float32 d [3%nat] [v_theta; v_phi; v_gamma]) true))
        (Some (mkParameter
                 (mkTensor Float32 d [3%nat] [v_bx; v_by; v_bz]) true)) /\
    snd (forward sdr theta phi gamma bx by_ bz self)
    = snd (initialize_parameters sdr theta phi gamma bx by_ bz self) /\
    float32_on d (self_sdr self) /\
    float32_on d (self_rotations self) /\
    float32_on d (self_translations self).
Proof.
  intros Hinit Hreach Hret.
  destruct (DRR_init_returns _ _ _ _ _ _ _ _ Hinit) as (Hdev & _ & _).
  destruct (DRR_init_fresh _ _ _ _ _ _ _ _ Hinit) as (Hs0 & Hr0 & Ht0).
  destruct (reachable_components _ _ Hreach) as (Hd & Hdet & Hsid).
  assert (Hinv : pose_float32 self).
  { apply (reachable_float32 self0); trivial.
    unfold pose_float32. rewrite Hs0, Hr0, Ht0. simpl. auto. }
  assert (Hfwd : snd (forward sdr theta phi gamma bx by_ bz self)
                 = snd (initialize_parameters sdr theta phi gamma bx by_ bz
                          self)).
  { rewrite forward_state.
    destruct sdr as [n|]; [reflexivity|].
    rewrite initialize_parameters_steps in Hret. discriminate. }
  revert Hret. rewrite Hfwd. rewrite initialize_parameters_steps. cbv zeta.
  destruct (tensor_of_scalar sdr (self_device self)) as [ts|e] eqn:Es;
    [|discriminate].
  destruct (tensor_of_list [theta; phi; gamma] (self_device self))
    as [tr|e] eqn:Er; [|discriminate].
  destruct (tensor_of_list [bx; by_; bz] (self_device self))
    as [tt'|e] eqn:Et; [|discriminate].
  intros _.
  destruct (tensor_of_scalar_stored _ _ _ Es) as (v1 & H1 & ->).
  destruct (tensor_of_triple_stored _ _ _ _ _ Er)
    as (v2 & v3 & v4 & H2 & H3 & H4 & ->).
  destruct (tensor_of_triple_stored _ _ _ _ _ Et)
    as (v5 & v6 & v7 & H5 & H6 & H7 & ->).
  exists (self_device self), v1, v2, v3, v4, v5, v6, v7.
  destruct Hinv as (Is & Ir & It).
  repeat (split; [first [assumption | congruence | reflexivity]|]).
  split; [|split; [reflexivity|auto]].
  cbn. now rewrite Hdet, Hsid.
Qed.

(** A float64 input is narrowed: 0.1 is stored as the nearest float32,
    which is larger than the double; the integer 2^24 + 1 is stored as
    2^24. *)
Lemma store_scalar_narrows :
  store_scalar (Some (PyFloat Reference.tenth))
    = Returns (S754_finite false 13421773 (-27)) /\
  SFcompare Reference.tenth (S754_finite false 13421773 (-27)) = Some Lt /\
  store_scalar (Some (PyInt 16777217)) = Returns (S754_finite false 8388608 1).
Proof. repeat split. Qed.

Lemma stored_pose_float32_witness :
  let self' :=
    snd (initialize_parameters
           (Some (PyFloat Reference.tenth)) (Some (PyInt 16777217))
           (Some (PyInt 0)) (Some (PyFloat Reference.one)) (Some (PyInt 0))
           (Some (PyInt 0)) (Some (PyInt 0)) Reference.posed_drr) in
  DRR_init (C := Reference.collaborators) Reference.ones Reference.unit_spacing
           2 (PyFloat Reference.one) None None "cpu"
  = Returns Reference.fresh_drr /\
  reachable Reference.fresh_drr Reference.posed_drr /\
  fst (initialize_parameters
         (Some (PyFloat Reference.tenth)) (Some (PyInt 16777217))
         (Some (PyInt 0)) (Some (PyFloat Reference.one)) (Some (PyInt 0))
         (Some (PyInt 0)) (Some (PyInt 0)) Reference.posed_drr) = Returns tt /\
  (exists d v_sdr v_theta v_phi v_gamma v_bx v_by v_bz,
      Reference.select_device "cpu" = Returns d /\
      stored_for (Some (PyFloat Reference.tenth)) v_sdr /\
      stored_for (Some (PyInt 16777217)) v_theta /\
      stored_for (Some (PyInt 0)) v_phi /\
      stored_for (Some (PyFloat Reference.one)) v_gamma /\
      stored_for (Some (PyInt 0)) v_bx /\ stored_for (Some (PyInt 0)) v_by /\
      stored_for (Some (PyInt 0)) v_bz /\
      self'
      = mkDRR d (self_detector Reference.fresh_drr)
          (self_siddon Reference.fresh_drr)
          (Some (mkParameter (mkTensor Float32 d [] [v_sdr]) false))
          (Some (mkParameter
                   (mkTensor Float32 d [3%nat] [v_theta; v_phi; v_gamma])
                   true))
          (Some (mkParameter
                   (mkTensor Float32 d [3%nat] [v_bx; v_by; v_bz]) true)) /\
      snd (forward
             (Some (PyFloat Reference.tenth)) (Some (PyInt 16777217))
             (Some (PyInt 0)) (Some (PyFloat Reference.one)) (Some (PyInt 0))
             (Some (PyInt 0)) (Some (PyInt 0)) Reference.posed_drr) = self' /\
      float32_on d (self_sdr Reference.posed_drr) /\
      float32_on d (self_rotations Reference.posed_drr) /\
      float32_on d (self_translations Reference.posed_drr)) /\
  self_sdr self'
  = Some (mkParameter
            (mkTensor Float32 "cpu" [] [S754_finite false 13421773 (-27)])
            false) /\
  self_rotations self'
  = Some (mkParameter
            (mkTensor Float32 "cpu" [3%nat]
               [S754_finite false 8388608 1; S754_zero false;
                S754_finite false 8388608 (-23)])
            true).
Proof.
  intros self'.
  assert (Hreach : reachable Reference.fresh_drr Reference.posed_drr).
  { exact (reach_call Reference.fresh_drr Reference.fresh_drr
             (InitializeParameters
                (Some (PyFloat Reference.two)) (Some (PyInt 0))
                (Some (PyInt 0)) (Some (PyInt 0)) (Some (PyInt 0))
                (Some (PyInt 0)) (Some (PyInt 0)))
             (reach_here _)). }
  split; [reflexivity|]. split; [exact Hreach|]. split; [reflexivity|].
  split; [|split; reflexivity].
  exact (stored_pose_float32 (C := Reference.collaborators)
           Reference.ones Reference.unit_spacing 2 (PyFloat Reference.one)
           None None "cpu" Reference.fresh_drr Reference.posed_drr
           (Some (PyFloat Reference.tenth)) (Some (PyInt 16777217))
           (Some (PyInt 0)) (Some (PyFloat Reference.one)) (Some (PyInt 0))
           (Some (PyInt 0)) (Some (PyInt 0)) eq_refl Hreach eq_refl).
Defined.

(** * Further properties of the module *)

(** ** Conversion of the seven scalars *)

Lemma mapM_store_scalar_length l : forall vs,
  mapM store_scalar l = Returns vs -> List.length vs = List.length l.
Proof.
  induction l as [|a l IH]; simpl; intros vs.
  - now intros [= <-].
  - destruct (store_scalar a); simpl; try discriminate.
    destruct (mapM store_scalar l) as [vs'|e]; simpl; try discriminate.
    intros [= <-]. simpl. f_equal. now apply IH.
Qed.

Lemma mapM_store_scalar_first_failure l :
  match first_failure l with
  | Some e => mapM store_scalar l = Raises e
  | None => exists vs, mapM store_scalar l = Returns vs
  end.
Proof.
  induction l as [|a l IH]; simpl.
  - eauto.
  - destruct (store_scalar a) as [v|e]; simpl; trivial.
    destruct (first_failure l) as [e|].
    + now rewrite IH.
    + destruct IH as [vs ->]. simpl. eauto.
Qed.

Lemma first_failure_app l1 l2 :
  first_failure (l1 ++ l2)%list =
  match first_failure l1 with
  | Some e => Some e
  | None => first_failure l2
  end.
Proof.
  induction l1 as [|a l1 IH]; simpl; trivial.
  destruct (store_scalar a); trivial.
Qed.

Lemma tensor_of_scalar_first_failure a dev :
  match first_failure [a] with
  | Some e => tensor_of_scalar a dev = Raises e
  | None => exists t, tensor_of_scalar a dev = Returns t
  end.
Proof.
  unfold tensor_of_scalar. simpl.
  destruct (store_scalar a); simpl; eauto.
Qed.

Lemma tensor_of_list_first_failure l dev :
  match first_failure l with
  | Some e => tensor_of_list l dev = Raises e
  | None => exists t, tensor_of_list l dev = Returns t
  end.
Proof.
  unfold tensor_of_list. pose proof (mapM_store_scalar_first_failure l) as H.
  destruct (first_failure l) as [e|].
  - now rewrite H.
  - destruct H as [vs ->]. simpl. eauto.
Qed.

Lemma tensor_of_scalar_layout a dev t :
  tensor_of_scalar a dev = Returns t ->
  t_shape t = [] /\ List.length (t_data t) = 1%nat.
Proof.
  unfold tensor_of_scalar. destruct (store_scalar a); simpl; try discriminate.
  intros [= <-]. auto.
Qed.

Lemma tensor_of_list_layout l dev t :
  tensor_of_list l dev = Returns t ->
  t_shape t = [List.length l] /\ List.length (t_data t) = List.length l.
Proof.
  unfold tensor_of_list.
  destruct (mapM store_scalar l) as [vs|e] eqn:E; simpl; try discriminate.
  intros [= <-]. simpl. split; trivial.
  now apply mapM_store_scalar_length.
Qed.

(** X10: [initialize_parameters] raises the exception of the first of
    sdr, theta, phi, gamma, bx, by, bz, in this order, whose conversion
    to a float32 entry raises, and returns when none does. *)
Theorem initialize_parameters_first_failure {C : Collaborators}
    (sdr theta phi gamma bx by_ bz : arg) (self : DRR C) :
  fst (initialize_parameters sdr theta phi gamma bx by_ bz self) =
  match first_failure [sdr; theta; phi; gamma; bx; by_; bz] with
  | Some e => Raises e
  | None => Returns tt
  end.
Proof.
  rewrite initialize_parameters_steps. cbv zeta.
  change [sdr; theta; phi; gamma; bx; by_; bz]
    with ([sdr] ++ [theta; phi; gamma] ++ [bx; by_; bz])%list.
  rewrite !first_failure_app.
  pose proof (tensor_of_scalar_first_failure sdr (self_device self)) as Hs.
  pose proof (tensor_of_list_first_failure [theta; phi; gamma]
                (self_device self)) as Hr.
  pose proof (tensor_of_list_first_failure [bx; by_; bz]
                (self_device self)) as Ht.
  destruct (first_failure [sdr]) as [e|]; [now rewrite Hs|].
  destruct Hs as [ts ->].
  destruct (first_failure [theta; phi; gamma]) as [e|]; [now rewrite Hr|].
  destruct Hr as [tr ->].
  destruct (first_failure [bx; by_; bz]) as [e|]; [now rewrite Ht|].
  destruct Ht as [tt' ->]. reflexivity.
Qed.

(** X9: seven Python floats are never rejected, whatever their values
    (NaN and the infinities included): [initialize_parameters] returns,
    and the object then holds sdr as a 0-d tensor and (theta, phi, gamma)
    and (bx, by, bz) as 3-vectors, in this order, each entry the float32
    cast of the given double; a NaN or an infinity is stored as it is. *)
Theorem initialize_parameters_floats {C : Collaborators}
    (sdr theta phi gamma bx by_ bz : float64) (self : DRR C) :
  initialize_parameters
    (Some (PyFloat sdr)) (Some (PyFloat theta)) (Some (PyFloat phi))
    (Some (PyFloat gamma)) (Some (PyFloat bx)) (Some (PyFloat by_))
    (Some (PyFloat bz)) self
  = (Returns tt,
     let dev := self_device self in
     mkDRR dev (self_detector self) (self_siddon self)
       (Some (mkParameter (mkTensor Float32 dev [] [to_float32 sdr]) false))
       (Some (mkParameter
                (mkTensor Float32 dev [3%nat]
                   [to_float32 theta; to_float32 phi; to_float32 gamma])
                true))
       (Some (mkParameter
                (mkTensor Float32 dev [3%nat]
                   [to_float32 bx; to_float32 by_; to_float32 bz])
                true))) /\
  to_float32 S754_nan = S754_nan /\
  (forall s, to_float32 (S754_infinity s) = S754_infinity s).
Proof.
  split; [|split; reflexivity].
  rewrite initialize_parameters_steps. reflexivity.
Qed.

(** ** The stages of the stored pose *)

Section StageFacts.

Context {C : Collaborators}.

Lemma initialize_parameters_prefix sdr theta phi gamma bx by_ bz
    (self : DRR C) :
  pose_prefix self ->
  pose_prefix (snd (initialize_parameters sdr theta phi gamma bx by_ bz self)).
Proof.
  intros (Htr & Hrs). rewrite initialize_parameters_steps. cbv zeta.
  unfold pose_prefix.
  destruct (tensor_of_scalar _ _); cbn; [|auto].
  destruct (tensor_of_list [theta; phi; gamma] _); cbn; [|auto].
  destruct (tensor_of_list [bx; by_; bz] _); cbn; auto.
Qed.

Lemma initialize_parameters_still_set sdr theta phi gamma bx by_ bz
    (self : DRR C) :
  still_set self
    (snd (initialize_parameters sdr theta phi gamma bx by_ bz self)).
Proof.
  rewrite initialize_parameters_steps. cbv zeta. unfold still_set.
  destruct (tensor_of_scalar _ _); cbn; [|auto].
  destruct (tensor_of_list [theta; phi; gamma] _); cbn; [|auto].
  destruct (tensor_of_list [bx; by_; bz] _); cbn; auto.
Qed.

Lemma initialize_parameters_layout sdr theta phi gamma bx by_ bz
    (self : DRR C) :
  pose_layout self ->
  pose_layout (snd (initialize_parameters sdr theta phi gamma bx by_ bz self)).
Proof.
  intros (Hs & Hr & Ht). rewrite initialize_parameters_steps. cbv zeta.
  unfold pose_layout.
  destruct (tensor_of_scalar _ _) as [ts|e] eqn:Es; cbn [snd]; [|auto].
  apply tensor_of_scalar_layout in Es.
  destruct (tensor_of_list [theta; phi; gamma] _) as [tr|e] eqn:Er;
    cbn [snd]; [|now repeat split].
  apply tensor_of_list_layout in Er.
  destruct (tensor_of_list [bx; by_; bz] _) as [tt'|e] eqn:Et;
    cbn [snd]; [|now repeat split].
  apply tensor_of_list_layout in Et.
  now repeat split.
Qed.

(** A property kept by [initialize_parameters] is kept by every call. *)
Lemma after_keeps (P : DRR C -> Prop) :
  (forall sdr theta phi gamma bx by_ bz self,
      P self ->
      P (snd (initialize_parameters sdr theta phi gamma bx by_ bz self))) ->
  forall c self, P self -> P (after c self).
Proof.
  intros Hinit c self HP. destruct c as [s t p g x y z|s t p g x y z]; simpl.
  - rewrite forward_state. destruct (any_is_not_None _); auto.
  - auto.
Qed.

Lemma reachable_keeps (P : DRR C -> Prop) :
  (forall sdr theta phi gamma bx by_ bz self,
      P self ->
      P (snd (initialize_parameters sdr theta phi gamma bx by_ bz self))) ->
  forall self0 self, P self0 -> reachable self0 self -> P self.
Proof.
  intros Hinit self0 self H0. induction 1 as [|self c _ IH]; trivial.
  now apply after_keeps.
Qed.

Lemma after_still_set c (self : DRR C) : still_set self (after c self).
Proof.
  destruct c as [s t p g x y z|s t p g x y z]; simpl.
  - rewrite forward_state. destruct (any_is_not_None _).
    + apply initialize_parameters_still_set.
    + unfold still_set; auto.
  - apply initialize_parameters_still_set.
Qed.

End StageFacts.

(** X4: on a constructed orchestrator, after any calls to [forward] and
    [initialize_parameters], whether they returned or raised, the stored
    parameters are set in the order sdr, rotations, translations:
    translations are set only if rotations are, and rotations only if sdr
    is. *)
Theorem stored_pose_prefix {C : Collaborators}
    vol sp h dx w dy dev (self0 self : DRR C) :
  DRR_init vol sp h dx w dy dev = Returns self0 ->
  reachable self0 self ->
  (is_set (self_translations self) = true ->
   is_set (self_rotations self) = true) /\
  (is_set (self_rotations self) = true -> is_set (self_sdr self) = true).
Proof.
  intros Hinit Hreach.
  destruct (DRR_init_fresh _ _ _ _ _ _ _ _ Hinit) as (Hs & Hr & Ht).
  apply (reachable_keeps pose_prefix initialize_parameters_prefix self0);
    trivial.
  unfold pose_prefix. rewrite Hr, Ht. simpl. split; discriminate.
Qed.

Lemma stored_pose_prefix_witness :
  let self :=
    after (Forward (Some (PyFloat Reference.one)) (Some (PyInt 0)) None
                   None None None None) Reference.fresh_drr in
  DRR_init (C := Reference.collaborators) Reference.ones Reference.unit_spacing
           2 (PyFloat Reference.one) None None "cpu"
  = Returns Reference.fresh_drr /\
  reachable Reference.fresh_drr self /\
  (is_set (self_translations self) = true ->
   is_set (self_rotations self) = true) /\
  (is_set (self_rotations self) = true -> is_set (self_sdr self) = true).
Proof.
  intros self.
  assert (Hreach : reachable Reference.fresh_drr self)
    by (apply reach_call, reach_here).
  split; [reflexivity|]. split; [exact Hreach|].
  exact (stored_pose_prefix (C := Reference.collaborators)
           Reference.ones Reference.unit_spacing 2 (PyFloat Reference.one)
           None None "cpu" Reference.fresh_drr self eq_refl Hreach).
Defined.

(** X5: no call unsets a stored parameter: whatever sdr, rotations or
    translations are set stay set after any sequence of [forward] and
    [initialize_parameters] calls, returned or raised.  An orchestrator
    that holds a complete pose holds one ever after. *)
Theorem stored_pose_never_unset {C : Collaborators} (self self' : DRR C) :
  reachable self self' ->
  (is_set (self_sdr self) = true -> is_set (self_sdr self') = true) /\
  (is_set (self_rotations self) = true ->
   is_set (self_rotations self') = true) /\
  (is_set (self_translations self) = true ->
   is_set (self_translations self') = true).
Proof.
  induction 1 as [|self' c _ IH].
  - auto.
  - destruct (after_still_set c self') as (Hs & Hr & Ht).
    destruct IH as (Hs' & Hr' & Ht'). auto.
Qed.

Lemma stored_pose_never_unset_witness :
  let self' :=
    after (Forward None (Some (PyInt 1)) None None None None None)
          Reference.posed_drr in
  reachable Reference.posed_drr self' /\
  is_set (self_sdr self') = true /\
  is_set (self_rotations self') = true /\
  is_set (self_translations self') = true.
Proof.
  intros self'.
  assert (Hreach : reachable Reference.posed_drr self')
    by (apply reach_call, reach_here).
  split; [exact Hreach|].
  destruct (stored_pose_never_unset (C := Reference.collaborators)
              Reference.posed_drr self' Hreach) as (Hs & Hr & Ht).
  split; [exact (Hs eq_refl)|]. split; [exact (Hr eq_refl)|exact (Ht eq_refl)].
Defined.

(** X6: on a constructed orchestrator, after any calls, a stored sdr is a
    0-d tensor of one entry that does not require gradients, and stored
    rotations and translations are vectors of three entries that do: no
    call makes sdr gradient-enabled or changes a shape. *)
Theorem stored_pose_layout {C : Collaborators}
    vol sp h dx w dy dev (self0 self : DRR C) :
  DRR_init vol sp h dx w dy dev = Returns self0 ->
  reachable self0 self ->
  stored_as false [] 1 (self_sdr self) /\
  stored_as true [3%nat] 3 (self_rotations self) /\
  stored_as true [3%nat] 3 (self_translations self).
Proof.
  intros Hinit Hreach.
  destruct (DRR_init_fresh _ _ _ _ _ _ _ _ Hinit) as (Hs & Hr & Ht).
  apply (reachable_keeps pose_layout initialize_parameters_layout self0);
    trivial.
  unfold pose_layout. rewrite Hs, Hr, Ht. simpl. auto.
Qed.

Lemma stored_pose_layout_witness :
  let self :=
    after (InitializeParameters
             (Some (PyFloat Reference.two)) (Some (PyInt 0)) (Some (PyInt 0))
             (Some (PyInt 0)) (Some (PyInt 0)) (Some (PyInt 0))
             (Some (PyInt 0))) Reference.fresh_drr in
  DRR_init (C := Reference.collaborators) Reference.ones Reference.unit_spacing
           2 (PyFloat Reference.one) None None "cpu"
  = Returns Reference.fresh_drr /\
  reachable Reference.fresh_drr self /\
  stored_as false [] 1 (self_sdr self) /\
  stored_as true [3%nat] 3 (self_rotations self) /\
  stored_as true [3%nat] 3 (self_translations self).
Proof.
  intros self.
  assert (Hreach : reachable Reference.fresh_drr self)
    by (apply reach_call, reach_here).
  split; [reflexivity|]. split; [exact Hreach|].
  exact (stored_pose_layout (C := Reference.collaborators)
           Reference.ones Reference.unit_spacing 2 (PyFloat Reference.one)
           None None "cpu" Reference.fresh_drr self eq_refl Hreach).
Defined.

(** X11: the device, the detector and the tracer of an orchestrator are
    those made at construction, from [get_device(device)],
    [Detector(height, width or height, delx, delx, device)] and
    [Siddon(volume, spacing, device)], and no sequence of calls replaces
    them. *)
Theorem components_fixed_at_construction {C : Collaborators}
    vol sp h dx w dy dev (self0 self : DRR C) :
  DRR_init vol sp h dx w dy dev = Returns self0 ->
  reachable self0 self ->
  get_device dev = Returns (self_device self) /\
  new_Detector h (match w with None => h | Some w' => w' end) dx dx dev
    = Returns (self_detector self) /\
  new_Siddon vol sp dev = Returns (self_siddon self).
Proof.
  intros Hinit Hreach.
  destruct (DRR_init_returns _ _ _ _ _ _ _ _ Hinit) as (Hdev & Hdet & Hsid).
  destruct (reachable_components _ _ Hreach) as (-> & -> & ->).
  auto.
Qed.

Lemma components_fixed_at_construction_witness :
  let self :=
    after (Forward (Some (PyFloat Reference.two)) (Some (PyInt 0))
                   (Some (PyInt 0)) (Some (PyInt 0)) (Some (PyInt 0))
                   (Some (PyInt 0)) (Some (PyInt 0))) Reference.fresh_drr in
  DRR_init (C := Reference.collaborators) Reference.ones Reference.unit_spacing
           2 (PyFloat Reference.one) None None "cpu"
  = Returns Reference.fresh_drr /\
  reachable Reference.fresh_drr self /\
  Reference.select_device "cpu" = Returns (self_device self) /\
  Reference.Detector_init 2 2 (PyFloat Reference.one) (PyFloat Reference.one)
    "cpu" = Returns (self_detector self) /\
  Returns (Reference.mkSiddon Reference.ones Reference.unit_spacing "cpu")
    = Returns (self_siddon self).
Proof.
  intros self.
  assert (Hreach : reachable Reference.fresh_drr self)
    by (apply reach_call, reach_here).
  split; [reflexivity|]. split; [exact Hreach|].
  exact (components_fixed_at_construction (C := Reference.collaborators)
           Reference.ones Reference.unit_spacing 2 (PyFloat Reference.one)
           None None "cpu" Reference.fresh_drr self eq_refl Hreach).
Defined.

(** ** Rendering again, and rendering after another pose *)

Section Replace.

Context {C : Collaborators}.

Lemma initialize_parameters_idempotent sdr theta phi gamma bx by_ bz
    (self : DRR C) :
  initialize_parameters sdr theta phi gamma bx by_ bz
    (snd (initialize_parameters sdr theta phi gamma bx by_ bz self))
  = initialize_parameters sdr theta phi gamma bx by_ bz self.
Proof.
  destruct self as [dev det sid s r t].
  rewrite (initialize_parameters_steps _ _ _ _ _ _ _
             (mkDRR dev det sid s r t)).
  cbv zeta. cbn [self_device].
  destruct (tensor_of_scalar sdr dev) as [ts|e] eqn:Es; cbn [snd].
  - destruct (tensor_of_list [theta; phi; gamma] dev) as [tr|e] eqn:Er;
      cbn [snd].
    + destruct (tensor_of_list [bx; by_; bz] dev) as [tt'|e] eqn:Et;
        cbn [snd]; rewrite initialize_parameters_steps; cbn;
        rewrite Es, Er, Et; reflexivity.
    + rewrite initialize_parameters_steps; cbn. rewrite Es, Er. reflexivity.
  - rewrite initialize_parameters_steps; cbn. rewrite Es. reflexivity.
Qed.

(** With all seven scalars supplied, what [initialize_parameters] does
    depends on the device, the detector and the tracer only. *)
Lemma initialize_parameters_replaces (sdr theta phi gamma bx by_ bz : arg)
    (self1 self2 : DRR C) :
  same_components self1 self2 ->
  fst (initialize_parameters sdr theta phi gamma bx by_ bz self1)
  = fst (initialize_parameters sdr theta phi gamma bx by_ bz self2) /\
  (fst (initialize_parameters sdr theta phi gamma bx by_ bz self1)
   = Returns tt ->
   snd (initialize_parameters sdr theta phi gamma bx by_ bz self1)
   = snd (initialize_parameters sdr theta phi gamma bx by_ bz self2)).
Proof.
  destruct self1 as [dev1 det1 sid1 s1 r1 t1].
  destruct self2 as [dev2 det2 sid2 s2 r2 t2].
  unfold same_components. cbn [self_device self_detector self_siddon].
  intros (-> & -> & ->).
  rewrite !initialize_parameters_steps. cbv zeta. cbn [self_device].
  destruct (tensor_of_scalar sdr dev2); cbn [fst snd];
    [|split; [trivial|discriminate]].
  destruct (tensor_of_list [theta; phi; gamma] dev2); cbn [fst snd];
    [|split; [trivial|discriminate]].
  destruct (tensor_of_list [bx; by_; bz] dev2); cbn [fst snd];
    [|split; [trivial|discriminate]].
  split; reflexivity.
Qed.

End Replace.

(** X8: rendering again with the same arguments changes nothing: a
    second [forward] with the arguments of the first, on the object the
    first one left, has the outcome of the first (the same image or the
    same exception) and leaves the object as the first left it. *)
Theorem forward_idempotent {C : Collaborators}
    (sdr theta phi gamma bx by_ bz : arg) (self : DRR C) :
  forward sdr theta phi gamma bx by_ bz
          (snd (forward sdr theta phi gamma bx by_ bz self))
  = forward sdr theta phi gamma bx by_ bz self.
Proof.
  destruct (any_is_not_None [sdr; theta; phi; gamma; bx; by_; bz]) eqn:Hany.
  - rewrite (forward_supplied _ _ _ _ _ _ _ self Hany).
    pose proof (initialize_parameters_idempotent sdr theta phi gamma bx by_ bz
                  self) as Hidem.
    destruct (initialize_parameters sdr theta phi gamma bx by_ bz self)
      as [[u|e] self'] eqn:E; cbn [snd] in *;
      rewrite (forward_supplied _ _ _ _ _ _ _ self' Hany), Hidem;
      reflexivity.
  - unfold any_is_not_None in Hany. simpl in Hany.
    destruct sdr, theta, phi, gamma, bx, by_, bz; try discriminate.
    now rewrite !forward_omitted.
Qed.

(** X7: rendering with a complete pose does not depend on the pose held
    before: on two objects with the same device, detector and tracer,
    [forward] with the same seven numbers has the same outcome, and when
    it returns an image the two objects are left equal. *)
Theorem forward_replaces_pose {C : Collaborators}
    (sdr theta phi gamma bx by_ bz : num) (self1 self2 : DRR C) :
  self_device self1 = self_device self2 ->
  self_detector self1 = self_detector self2 ->
  self_siddon self1 = self_siddon self2 ->
  let out1 := forward (Some sdr) (Some theta) (Some phi) (Some gamma)
                      (Some bx) (Some by_) (Some bz) self1 in
  let out2 := forward (Some sdr) (Some theta) (Some phi) (Some gamma)
                      (Some bx) (Some by_) (Some bz) self2 in
  fst out1 = fst out2 /\
  (forall img, fst out1 = Returns img -> snd out1 = snd out2).
Proof.
  intros Hdev Hdet Hsid out1 out2. subst out1 out2.
  rewrite !forward_supplied by reflexivity.
  destruct (initialize_parameters_replaces
              (Some sdr) (Some theta) (Some phi) (Some gamma)
              (Some bx) (Some by_) (Some bz) self1 self2
              (conj Hdev (conj Hdet Hsid))) as (Hfst & Hsnd).
  revert Hfst Hsnd.
  destruct (initialize_parameters _ _ _ _ _ _ _ self1) as [[[]|e1] s1'];
    destruct (initialize_parameters _ _ _ _ _ _ _ self2) as [[[]|e2] s2'];
    cbn [fst snd]; intros Hfst Hsnd; try discriminate.
  - rewrite (Hsnd eq_refl). auto.
  - injection Hfst as ->. split; [reflexivity|discriminate].
Qed.

Lemma forward_replaces_pose_witness :
  let out1 := forward (Some (PyFloat Reference.one)) (Some (PyInt 0))
                      (Some (PyInt 0)) (Some (PyInt 0)) (Some (PyInt 0))
                      (Some (PyInt 0)) (Some (PyInt 0)) Reference.fresh_drr in
  let out2 := forward (Some (PyFloat Reference.one)) (Some (PyInt 0))
                      (Some (PyInt 0)) (Some (PyInt 0)) (Some (PyInt 0))
                      (Some (PyInt 0)) (Some (PyInt 0)) Reference.posed_drr in
  self_device Reference.fresh_drr = self_device Reference.posed_drr /\
  self_detector Reference.fresh_drr = self_detector Reference.posed_drr /\
  self_siddon Reference.fresh_drr = self_siddon Reference.posed_drr /\
  fst out1 = fst out2 /\
  (forall img, fst out1 = Returns img -> snd out1 = snd out2).
Proof.
  cbv zeta. split; [reflexivity|]. split; [reflexivity|].
  split; [reflexivity|].
  exact (forward_replaces_pose (C := Reference.collaborators)
           (PyFloat Reference.one) (PyInt 0) (PyInt 0) (PyInt 0) (PyInt 0)
           (PyInt 0) (PyInt 0) Reference.fresh_drr Reference.posed_drr
           eq_refl eq_refl eq_refl).
Defined.

(** ** What the module prints *)

(** X1: a freshly constructed orchestrator prints as
    "Parameters uninitialized.", whatever [torch] prints for a
    parameter. *)
Theorem repr_fresh {C : Collaborators} (str : nn_Parameter -> string)
    vol sp h dx w dy dev (self : DRR C) :
  DRR_init vol sp h dx w dy dev = Returns self ->
  DRR_repr str self = "Parameters uninitialized.".
Proof.
  intros Hinit.
  destruct (DRR_init_fresh _ _ _ _ _ _ _ _ Hinit) as (Hs & Hr & Ht).
  unfold DRR_repr, parameters. now rewrite Hs, Hr, Ht.
Qed.

Lemma repr_fresh_witness :
  DRR_init (C := Reference.collaborators) Reference.ones Reference.unit_spacing
           2 (PyFloat Reference.one) None None "cpu"
  = Returns Reference.fresh_drr /\
  DRR_repr (fun _ => "Parameter containing:") Reference.fresh_drr
  = "Parameters uninitialized.".
Proof.
  split; [reflexivity|].
  exact (repr_fresh (C := Reference.collaborators)
           (fun _ => "Parameter containing:")
           Reference.ones Reference.unit_spacing 2 (PyFloat Reference.one)
           None None "cpu" Reference.fresh_drr eq_refl).
Defined.

(** X2: once [initialize_parameters] has returned, the module prints its
    three parameters, one after the other and separated by newlines, in
    the order sdr, rotations, translations: the sdr tensor without
    gradient, then the (theta, phi, gamma) and the (bx, by, bz) tensors
    with gradient. *)
Theorem repr_after_initialize_parameters {C : Collaborators}
    (str : nn_Parameter -> string)
    (sdr theta phi gamma bx by_ bz : arg) (self : DRR C) :
  fst (initialize_parameters sdr theta phi gamma bx by_ bz self) = Returns tt ->
  exists ts tr tt',
    tensor_of_scalar sdr (self_device self) = Returns ts /\
    tensor_of_list [theta; phi; gamma] (self_device self) = Returns tr /\
    tensor_of_list [bx; by_; bz] (self_device self) = Returns tt' /\
    DRR_repr str
      (snd (initialize_parameters sdr theta phi gamma bx by_ bz self))
    = (str (mkParameter ts false) ++ newline ++
       str (mkParameter tr true) ++ newline ++
       str (mkParameter tt' true))%string.
Proof.
  rewrite initialize_parameters_steps. cbv zeta.
  destruct (tensor_of_scalar _ _) as [ts|e]; [|discriminate].
  destruct (tensor_of_list [theta; phi; gamma] _) as [tr|e]; [|discriminate].
  destruct (tensor_of_list [bx; by_; bz] _) as [tt'|e]; [|discriminate].
  intros _. exists ts, tr, tt'. repeat split.
Qed.

Lemma repr_after_initialize_parameters_witness :
  fst (initialize_parameters
         (Some (PyFloat Reference.two)) (Some (PyInt 0)) (Some (PyInt 0))
         (Some (PyInt 0)) (Some (PyInt 0)) (Some (PyInt 0)) (Some (PyInt 0))
         Reference.fresh_drr) = Returns tt /\
  exists ts tr tt',
    tensor_of_scalar (Some (PyFloat Reference.two)) "cpu" = Returns ts /\
    tensor_of_list [Some (PyInt 0); Some (PyInt 0); Some (PyInt 0)] "cpu"
      = Returns tr /\
    tensor_of_list [Some (PyInt 0); Some (PyInt 0); Some (PyInt 0)] "cpu"
      = Returns tt' /\
    DRR_repr (fun p => if requires_grad p then "grad" else "fixed")
             Reference.posed_drr
    = ((fun p => if requires_grad p then "grad" else "fixed")
         (mkParameter ts false) ++ newline ++
       (fun p => if requires_grad p then "grad" else "fixed")
         (mkParameter tr true) ++ newline ++
       (fun p => if requires_grad p then "grad" else "fixed")
         (mkParameter tt' true))%string.
Proof.
  split; [reflexivity|].
  exact (repr_after_initialize_parameters (C := Reference.collaborators)
           (fun p => if requires_grad p then "grad" else "fixed")
           (Some (PyFloat Reference.two)) (Some (PyInt 0)) (Some (PyInt 0))
           (Some (PyInt 0)) (Some (PyInt 0)) (Some (PyInt 0)) (Some (PyInt 0))
           Reference.fresh_drr eq_refl).
Defined.

(** X3: a pose that failed half way is printed as if set.  On a freshly
    constructed orchestrator, a [forward] whose sdr converts and that
    omits one of theta, phi, gamma raises; afterwards the module holds
    neither rotations nor translations, yet it no longer prints
    "Parameters uninitialized." but the text of the sdr parameter
    alone. *)
Theorem repr_after_partial_forward {C : Collaborators}
    (str : nn_Parameter -> string)
    vol sp h dx w dy dev (self : DRR C)
    (sdr theta phi gamma bx by_ bz : arg) ts :
  DRR_init vol sp h dx w dy dev = Returns self ->
  tensor_of_scalar sdr (self_device self) = Returns ts ->
  forallb is_not_None [theta; phi; gamma] = false ->
  let out := forward sdr theta phi gamma bx by_ bz self in
  (exists e, fst out = Raises e) /\
  self_rotations (snd out) = None /\
  self_translations (snd out) = None /\
  DRR_repr str (snd out) = str (mkParameter ts false).
Proof.
  intros Hinit Hs Hangles out. subst out.
  destruct (DRR_init_fresh _ _ _ _ _ _ _ _ Hinit) as (_ & Hr & Ht).
  assert (Hany : any_is_not_None [sdr; theta; phi; gamma; bx; by_; bz] = true).
  { destruct sdr; [reflexivity|].
    rewrite tensor_of_scalar_None in Hs. discriminate. }
  rewrite (forward_supplied _ _ _ _ _ _ _ _ Hany).
  rewrite initialize_parameters_steps. cbv zeta. rewrite Hs.
  destruct (tensor_of_list_omitted _ (self_device self) Hangles) as [e ->].
  cbn [fst snd]. split; [eauto|].
  unfold DRR_repr, parameters, with_sdr. cbn. rewrite Hr, Ht. auto.
Qed.

Lemma repr_after_partial_forward_witness :
  let out := forward (Some (PyFloat Reference.one)) (Some (PyInt 0)) None
                     None None None None Reference.fresh_drr in
  DRR_init (C := Reference.collaborators) Reference.ones Reference.unit_spacing
           2 (PyFloat Reference.one) None None "cpu"
  = Returns Reference.fresh_drr /\
  tensor_of_scalar (Some (PyFloat Reference.one)) "cpu"
  = Returns (mkTensor Float32 "cpu" [] [S754_finite false 8388608 (-23)]) /\
  forallb is_not_None [Some (PyInt 0); None; None] = false /\
  (exists e, fst out = Raises e) /\
  self_rotations (snd out) = None /\
  self_translations (snd out) = None /\
  DRR_repr (fun _ => "Parameter containing:") (snd out)
  = "Parameter containing:".
Proof.
  cbv zeta. split; [reflexivity|]. split; [reflexivity|].
  split; [reflexivity|].
  exact (repr_after_partial_forward (C := Reference.collaborators)
           (fun _ => "Parameter containing:")
           Reference.ones Reference.unit_spacing 2 (PyFloat Reference.one)
           None None "cpu" Reference.fresh_drr
           (Some (PyFloat Reference.one)) (Some (PyInt 0)) None None None
           None None
           (mkTensor Float32 "cpu" [] [S754_finite false 8388608 (-23)])
           eq_refl eq_refl eq_refl).
Defined.

(** ** The image of a call *)

(** X12: an image that [forward] returns is computed in that call: it is
    what the tracer returns on the rays the detector makes from the sdr,
    rotations and translations that the object holds when the call
    returns - the pose just supplied, or the stored one when none was -
    with the detector and the tracer the object had before the call.  No
    attribute of the object holds an image from one call to the next. *)
Theorem forward_image_is_rendered {C : Collaborators}
    (sdr theta phi gamma bx by_ bz : arg) (self : DRR C) img :
  fst (forward sdr theta phi gamma bx by_ bz self) = Returns img ->
  let self' := snd (forward sdr theta phi gamma bx by_ bz self) in
  (xr <- make_xrays (self_detector self) (self_sdr self')
           (self_rotations self') (self_translations self') ;;
   raytrace (self_siddon self) (fst xr) (snd xr))%py = Returns img.
Proof.
  intros Himg self'.
  pose proof (forward_renders_stored_pose _ _ _ _ _ _ _ _ _ Himg) as Hrender.
  destruct (after_components (Forward sdr theta phi gamma bx by_ bz) self)
    as (_ & Hdet & Hsid).
  cbn [after] in Hdet, Hsid. fold self' in Hrender, Hdet, Hsid.
  unfold render in Hrender. now rewrite Hdet, Hsid in Hrender.
Qed.

Lemma forward_image_is_rendered_witness :
  let out := forward (Some (PyFloat Reference.one)) (Some (PyInt 0))
                     (Some (PyInt 0)) (Some (PyInt 0)) (Some (PyInt 0))
                     (Some (PyInt 0)) (Some (PyInt 0)) Reference.posed_drr in
  exists img,
    fst out = Returns img /\
    (xr <- Reference.generate_rays (self_detector Reference.posed_drr)
             (self_sdr (snd out)) (self_rotations (snd out))
             (self_translations (snd out)) ;;
     Reference.trace (self_siddon Reference.posed_drr) (fst xr) (snd xr))%py
    = Returns img /\
    self_sdr (snd out) <> self_sdr Reference.posed_drr.
Proof.
  cbv zeta. eexists. split; [reflexivity|]. split.
  - exact (forward_image_is_rendered (C := Reference.collaborators)
             (Some (PyFloat Reference.one)) (Some (PyInt 0))
             (Some (PyInt 0)) (Some (PyInt 0)) (Some (PyInt 0))
             (Some (PyInt 0)) (Some (PyInt 0)) Reference.posed_drr _ eq_refl).
  - vm_compute. discriminate.
Defined.
